(** * compress.py: an FFmpeg command builder and batch driver

    A shallow embedding of [src/compress.py] and the properties of its
    three helpers: [_get_format_settings], [_single_convert] and
    [_batch_convert].

    Conventions of the embedding:
    - a Python [str] is a [string]; the characters are ASCII, so that
      [str.lower] acts on the letters A-Z only;
    - a Python [int] is a [Z], an argument that may be [None] is an [option];
    - the two dictionaries with constant keys are [gmap]s, [dict.get] is a
      lookup with a default;
    - [os.path] is the POSIX flavour ([posixpath]): separator [/], extension
      separator [.];
    - the filesystem and the child process are an abstract state, and every
      [print] and every call of [subprocess.run] is recorded in a trace of
      events;
    - a computation returns or raises: [subprocess.run] raises [OSError]
      when the tool cannot be started, [bytes.decode] raises
      [UnicodeDecodeError] on an error stream that is not valid UTF-8, and
      neither is caught by the program. *)

From Stdlib Require Import ZArith Ascii String List Lia.
From Stdlib.Strings Require Import Byte.
From stdpp Require Import base option list gmap strings pretty.

Open Scope string_scope.
Open Scope list_scope.
Open Scope Z_scope.

(** ** Python built-ins on strings and integers *)

Module Py.

(** [str(n)] on an [int]: decimal digits, a leading [-] below zero. *)
Definition str (n : Z) : string := pretty n.

(** One character of [str.lower]: the upper-case ASCII letters move to
    their lower-case twins, every other character stays. *)
Definition lower_ascii (c : ascii) : ascii :=
  let n := N_of_ascii c in
  if ((65 <=? n) && (n <=? 90))%N then ascii_of_N (n + 32) else c.

(** [s.lower()] *)
Fixpoint lower (s : string) : string :=
  match s with
  | EmptyString => EmptyString
  | String c s' => String (lower_ascii c) (lower s')
  end.

(** [s.endswith(suffix)] *)
Definition endswith (s suffix : string) : bool :=
  let n := String.length s in
  let k := String.length suffix in
  (k <=? n)%nat && String.eqb (substring (n - k) k s) suffix.

(** [s.rfind(c)] for a single character [c]: the highest index at which
    [c] occurs, or [-1]. *)
Fixpoint rfind_from (i : Z) (s : string) (c : ascii) : Z :=
  match s with
  | EmptyString => -1
  | String a s' =>
      let r := rfind_from (i + 1) s' c in
      if r >=? 0 then r else if Ascii.eqb a c then i else -1
  end.

Definition rfind (s : string) (c : ascii) : Z := rfind_from 0 s c.

(** [s[i:i+1]] for [0 <= i]: the character at [i] as a string, or the
    empty string past the end. *)
Definition char_at (s : string) (i : Z) : string :=
  substring (Z.to_nat i) 1 s.

(** [s[:i]] and [s[i:]] for [0 <= i] *)
Definition take (i : Z) (s : string) : string :=
  substring 0 (Z.to_nat i) s.

Definition drop (i : Z) (s : string) : string :=
  substring (Z.to_nat i) (String.length s - Z.to_nat i) s.

(** The truth value of an [int]: only [0] is false. *)
Definition truthy_int (n : Z) : bool := negb (n =? 0).

(** The truth value of a [str]: only [''] is false. *)
Definition truthy_str (s : string) : bool :=
  match s with
  | EmptyString => false
  | String _ _ => true
  end.

(** The truth value of a [list]: only [[]] is false. *)
Definition truthy_list {A} (l : list A) : bool :=
  match l with
  | [] => false
  | _ :: _ => true
  end.

(** [x in l] for a list of strings: the elements are compared to [x] from
    left to right. *)
Definition in_list (x : string) (l : list string) : bool :=
  existsb (String.eqb x) l.

(** [d.get(k, default)] *)
Definition dict_get `{Countable K} {V} (d : gmap K V) (k : K) (dflt : V) : V :=
  default dflt (d !! k).

End Py.

(** ** [_get_format_settings] *)

(** The dictionary [format_settings], which always has the two keys
    ['codec'] and ['format_args']. *)
Record format_settings := FormatSettings {
  codec : list string;
  format_args : list string
}.

(** The table [bitrates] of the [m4a] branch. *)
Definition bitrates : gmap Z string :=
  <[0 := "384k"]> (<[1 := "320k"]> (<[2 := "256k"]> (<[3 := "224k"]>
  (<[4 := "192k"]> (<[5 := "160k"]> (<[6 := "128k"]> (<[7 := "112k"]>
  (<[8 := "96k"]> (<[9 := "64k"]> ∅))))))))).

(** The chain of [if] and [elif] on the format in lower case; each branch
    sets ['codec'], and ['format_args'] when a level is given. *)
Definition _get_format_settings (output_format : string)
    (compression_level : option Z) : format_settings :=
  let fs := FormatSettings [] [] in
  let output_format := Py.lower output_format in
  if String.eqb output_format "flac" then
    let fs := FormatSettings ["-c:a"; "flac"] (format_args fs) in
    match compression_level with
    | Some l => FormatSettings (codec fs) ["-compression_level"; Py.str l]
    | None => fs
    end
  else if String.eqb output_format "mp3" then
    let fs := FormatSettings ["-c:a"; "libmp3lame"] (format_args fs) in
    match compression_level with
    | Some l =>
        let quality := Z.max 0 (Z.min 9 l) in
        FormatSettings (codec fs) ["-q:a"; Py.str quality]
    | None => fs
    end
  else if String.eqb output_format "m4a" then
    let fs := FormatSettings ["-c:a"; "aac"] (format_args fs) in
    match compression_level with
    | Some l =>
        let bitrate := Py.dict_get bitrates l "128k" in
        FormatSettings (codec fs) ["-b:a"; bitrate]
    | None => fs
    end
  else if String.eqb output_format "wav" then
    FormatSettings ["-c:a"; "pcm_s16le"] (format_args fs)
  else if String.eqb output_format "ogg" then
    let fs := FormatSettings ["-c:a"; "libvorbis"] (format_args fs) in
    match compression_level with
    | Some l =>
        let quality := Z.max 0 (Z.min 9 l) in
        FormatSettings (codec fs) ["-q:a"; Py.str quality]
    | None => fs
    end
  else
    FormatSettings ["-c:a"; "copy"] (format_args fs).

(** ** [os.path] *)

Module os_path.

(** The loop of [genericpath._splitext] that skips the leading dots of the
    file name: [n] is the number of iterations left, that is
    [dotIndex - filenameIndex]. *)
Fixpoint skip_leading_dots (n : nat) (p : string)
    (filenameIndex dotIndex : Z) : string * string :=
  match n with
  | O => (p, Py.take 0 p)
  | S n' =>
      if negb (String.eqb (Py.char_at p filenameIndex) ".")
      then (Py.take dotIndex p, Py.drop dotIndex p)
      else skip_leading_dots n' p (filenameIndex + 1) dotIndex
  end.

(** [os.path.splitext(p)]: the pair [(root, ext)]. *)
Definition splitext (p : string) : string * string :=
  let sepIndex := Py.rfind p "/" in
  let dotIndex := Py.rfind p "." in
  if dotIndex >? sepIndex then
    let filenameIndex := sepIndex + 1 in
    skip_leading_dots (Z.to_nat (dotIndex - filenameIndex)) p
      filenameIndex dotIndex
  else (p, Py.take 0 p).

(** [os.path.basename(p)] *)
Definition basename (p : string) : string :=
  let i := Py.rfind p "/" + 1 in
  Py.drop i p.

(** [os.path.join(a, b)] *)
Definition join (a b : string) : string :=
  if String.prefix "/" b then b
  else if String.eqb a "" || Py.endswith a "/" then a +:+ b
  else a +:+ "/" +:+ b.

End os_path.

(** ** The extension table *)

(** The dictionary [format_extensions], the same in [_single_convert] and in
    [_batch_convert]. *)
Definition format_extensions : gmap string string :=
  <["flac" := ".flac"]> (<["mp3" := ".mp3"]> (<["m4a" := ".m4a"]>
  (<["wav" := ".wav"]> (<["ogg" := ".ogg"]> (<["aac" := ".aac"]>
  (<["wma" := ".wma"]> (<["alac" := ".m4a"]> ∅))))))).

(** [format_extensions.get(output_format.lower(), f'.{output_format}')] *)
Definition output_extension (output_format : string) : string :=
  Py.dict_get format_extensions (Py.lower output_format)
    ("." +:+ output_format).

(** ** The operating system *)

(** The exceptions that leave the program: [OSError] from
    [subprocess.run] when the tool cannot be started (it is missing, or may
    not be executed), and [UnicodeDecodeError] from [bytes.decode]. *)
Inductive exn :=
  | OSError
  | UnicodeDecodeError.

(** How a computation ends: with a value, or with an exception that nothing
    caught. *)
Inductive outcome (A : Type) :=
  | Returned (a : A)
  | Raised (e : exn).

Arguments Returned {A} a.
Arguments Raised {A} e.

(** What [subprocess.run] knows of a child that ran: its exit status and
    the bytes it wrote to its error stream. *)
Record completed := Completed {
  returncode : Z;
  stderr : list byte
}.

(** What a run of the program does that can be seen from outside, in the
    order it happens: a line printed, and a call of [subprocess.run] with a
    command. *)
Inductive event :=
  | Print (line : string)
  | Spawn (cmd : list string).

(** The commands that a trace handed to [subprocess.run], oldest first. *)
Fixpoint spawned (t : list event) : list (list string) :=
  match t with
  | [] => []
  | Print _ :: t' => spawned t'
  | Spawn cmd :: t' => cmd :: spawned t'
  end.

(** A command started for [audio_path]: the argument after [-i], its
    input, is [audio_path]. *)
Definition converts (audio_path : string) (cmd : list string) : Prop :=
  cmd !! 2%nat = Some audio_path.

(** The lines printed by a trace, oldest first. *)
Fixpoint printed (t : list event) : list string :=
  match t with
  | [] => []
  | Print line :: t' => line :: printed t'
  | Spawn _ :: t' => printed t'
  end.

Section Converter.

(** The state of the filesystem, and the five ways the program touches it:
    [os.path.exists], [os.path.isdir], [os.makedirs(d, exist_ok=True)],
    [Path(d).glob(pattern)] with every match turned into a string, and
    [subprocess.run] without its check of the exit status: the child ran,
    and may have changed the filesystem, or [OSError] is raised. Beside
    them [bytes.decode()], strict UTF-8: [None] where it raises
    [UnicodeDecodeError]. *)
Context {World : Type}.
Variable path_exists : string → World → bool.
Variable path_isdir : string → World → bool.
Variable makedirs : string → World → World.
Variable glob : string → string → World → list string.
Variable subprocess_run : list string → World → outcome completed * World.
Variable decode : list byte → option string.

(** A computation threads the filesystem, appends to the trace, and returns
    or raises; what follows an exception is not run. *)
Definition io (A : Type) : Type :=
  World → list event → outcome A * World * list event.

#[local] Instance io_ret : MRet io := λ A x w t, (Returned x, w, t).
#[local] Instance io_bind : MBind io := λ A B f m w t,
  let '(o, w', t') := m w t in
  match o with
  | Returned x => f x w' t'
  | Raised e => (Raised e, w', t')
  end.

Definition raise {A} (e : exn) : io A := λ w t, (Raised e, w, t).

Definition emit (e : event) : io unit := λ w t, (Returned tt, w, t ++ [e]).
Definition print (line : string) : io unit := emit (Print line).
Definition os_path_exists (p : string) : io bool :=
  λ w t, (Returned (path_exists p w), w, t).
Definition os_path_isdir (p : string) : io bool :=
  λ w t, (Returned (path_isdir p w), w, t).
Definition os_makedirs (d : string) : io unit :=
  λ w t, (Returned tt, makedirs d w, t).
Definition Path_glob (d pattern : string) : io (list string) :=
  λ w t, (Returned (glob d pattern w), w, t).
Definition subprocess_run_check (cmd : list string) : io completed :=
  λ w t, let '(o, w') := subprocess_run cmd w in (o, w', t ++ [Spawn cmd]).

(** A whole run, from an empty trace. *)
Definition exec {A} (m : io A) (w : World)
    : outcome A * World * list event := m w [].

(** ** [_single_convert] *)

(** Lines 118 to 156: the list [cmd], grown by [extend] and [append]. *)
Definition ffmpeg_cmd (input_file output_format output_file : string)
    (compression_level sample_rate channels bit_depth : option Z)
    (extra_args : option (list string)) : list string :=
  let cmd := ["ffmpeg"; "-i"; input_file] in
  let format_settings := _get_format_settings output_format compression_level in
  let cmd := cmd ++ codec format_settings in
  let cmd := cmd ++ format_args format_settings in
  let cmd :=
    match sample_rate with
    | Some r => if Py.truthy_int r then cmd ++ ["-ar"; Py.str r] else cmd
    | None => cmd
    end in
  let cmd :=
    match channels with
    | Some c => if Py.truthy_int c then cmd ++ ["-ac"; Py.str c] else cmd
    | None => cmd
    end in
  let cmd :=
    match bit_depth with
    | Some b =>
        if Py.truthy_int b
           && Py.in_list (Py.lower output_format) ["flac"; "wav"]
        then
          if String.eqb (Py.lower output_format) "flac" then
            if b =? 16 then cmd ++ ["-sample_fmt"; "s16"]
            else if b =? 24 then cmd ++ ["-sample_fmt"; "s32"]
            else if b =? 32 then cmd ++ ["-sample_fmt"; "s32"]
            else cmd
          else if String.eqb (Py.lower output_format) "wav" then
            if b =? 16 then cmd ++ ["-c:a"; "pcm_s16le"]
            else if b =? 24 then cmd ++ ["-c:a"; "pcm_s24le"]
            else if b =? 32 then cmd ++ ["-c:a"; "pcm_s32le"]
            else cmd
          else cmd
        else cmd
    | None => cmd
    end in
  let cmd :=
    match extra_args with
    | Some extra => if Py.truthy_list extra then cmd ++ extra else cmd
    | None => cmd
    end in
  cmd ++ [output_file].

(** Lines 113 to 116: the output file, when none is given. *)
Definition resolve_output_file (input_file output_format : string)
    (output_file : option string) : string :=
  let output_extension := output_extension output_format in
  match output_file with
  | None => (os_path.splitext input_file).1 +:+ output_extension
  | Some o => o
  end.

(** The whole function. [subprocess.run] is called with [check=True]: an
    exit status other than [0] raises [CalledProcessError], which the
    [except] clause catches; there the error stream is decoded, which may
    raise in its turn, then a line is printed and [None] returned. *)
Definition _single_convert (input_file output_format : string)
    (output_file : option string)
    (compression_level sample_rate channels bit_depth : option Z)
    (extra_args : option (list string)) : io (option string) :=
  found ← os_path_exists input_file;
  if negb found then
    _ ← print ("Input file not found: " +:+ input_file);
    mret None
  else
    let output_file := resolve_output_file input_file output_format output_file in
    let cmd := ffmpeg_cmd input_file output_format output_file
                 compression_level sample_rate channels bit_depth extra_args in
    result ← subprocess_run_check cmd;
    if returncode result =? 0 then
      _ ← print ("Successfully converted " +:+ input_file +:+ " to " +:+ output_file);
      mret (Some output_file)
    else
      match decode (stderr result) with
      | Some text =>
          _ ← print ("Error converting file: " +:+ text);
          mret None
      | None => raise UnicodeDecodeError
      end.

(** ** [_batch_convert] *)

(** The body of the [for] loop, over the files still to visit;
    [successful_conversions] is the list built so far. *)
Fixpoint batch_loop (audio_files : list string) (output_format : string)
    (output_dir : option string)
    (compression_level sample_rate channels bit_depth : option Z)
    (extra_args : option (list string)) (output_extension : string)
    (successful_conversions : list string) : io (list string) :=
  match audio_files with
  | [] => mret successful_conversions
  | audio_path :: rest =>
      let continue acc :=
        batch_loop rest output_format output_dir compression_level
          sample_rate channels bit_depth extra_args output_extension acc in
      if Py.endswith (Py.lower audio_path) output_extension then
        continue successful_conversions
      else
        let output_path :=
          match output_dir with
          | Some d =>
              let filename := os_path.basename audio_path in
              let base_name := (os_path.splitext filename).1 in
              os_path.join d (base_name +:+ output_extension)
          | None => (os_path.splitext audio_path).1 +:+ output_extension
          end in
        result ← _single_convert audio_path output_format (Some output_path)
                   compression_level sample_rate channels bit_depth extra_args;
        match result with
        | Some r =>
            if Py.truthy_str r then continue (successful_conversions ++ [r])
            else continue successful_conversions
        | None => continue successful_conversions
        end
  end.

(** The whole function: the output directory, the glob, the early return
    on an empty list, the loop and the summary line. *)
Definition _batch_convert (input_dir output_format : string)
    (output_dir : option string)
    (compression_level sample_rate channels bit_depth : option Z)
    (extra_args : option (list string)) (file_pattern : string)
    : io (list string) :=
  _ ← match output_dir with
      | Some d => os_makedirs d
      | None => mret tt
      end;
  audio_files ← Path_glob input_dir file_pattern;
  if negb (Py.truthy_list audio_files) then
    _ ← print ("No files matching pattern '" +:+ file_pattern
               +:+ "' found in " +:+ input_dir);
    mret []
  else
    let output_extension := output_extension output_format in
    successful_conversions ←
      batch_loop audio_files output_format output_dir compression_level
        sample_rate channels bit_depth extra_args output_extension [];
    _ ← print ("Converted "
               +:+ Py.str (Z.of_nat (length successful_conversions))
               +:+ " files to " +:+ output_format +:+ " format");
    mret successful_conversions.

(** ** [convert_audio] *)

(** The result is a path or [None] for a file, a list for a directory. *)
Definition convert_audio (input_path output_format : string)
    (output_path : option string)
    (compression_level sample_rate channels bit_depth : option Z)
    (extra_args : option (list string)) (file_pattern : string)
    : io (option string + list string) :=
  isdir ← os_path_isdir input_path;
  if (isdir : bool) then
    l ← _batch_convert input_path output_format output_path compression_level
          sample_rate channels bit_depth extra_args file_pattern;
    mret (inr l)
  else
    r ← _single_convert input_path output_format output_path compression_level
          sample_rate channels bit_depth extra_args;
    mret (inl r).

End Converter.

Arguments io : clear implicits.

(** Lines 206 to 213 on their own: the output path that the loop of
    [_batch_convert] passes on for [audio_path]. *)
Definition batch_output_path (output_dir : option string)
    (output_extension audio_path : string) : string :=
  match output_dir with
  | Some d =>
      let filename := os_path.basename audio_path in
      let base_name := (os_path.splitext filename).1 in
      os_path.join d (base_name +:+ output_extension)
  | None => (os_path.splitext audio_path).1 +:+ output_extension
  end.


(** ** A filesystem to run the program on *)

(** The smallest filesystem that the program can run on: the state is the
    list of the paths that exist, every path of it matches every pattern,
    nothing is a directory, the tool always starts, and the child process
    exits with status [0] after it has created its last argument, unless
    that argument is also its input, in which case it exits with status [1];
    every error stream decodes, byte for character. *)
Module Toy.

Definition World : Type := list string.

Definition path_exists (p : string) (w : World) : bool := Py.in_list p w.
Definition path_isdir (p : string) (w : World) : bool := false.
Definition makedirs (d : string) (w : World) : World := w.
Definition glob (d pattern : string) (w : World) : list string := w.

Definition subprocess_run (cmd : list string) (w : World)
    : outcome completed * World :=
  match cmd !! 2%nat, last cmd with
  | Some i, Some o =>
      if String.eqb i o
      then (Returned (Completed 1 (list_byte_of_string "Output same as Input")), w)
      else (Returned (Completed 0 []), w ++ [o])
  | _, _ => (Returned (Completed 1 (list_byte_of_string "usage")), w)
  end.

Definition decode (b : list byte) : option string :=
  Some (string_of_list_byte b).

Definition single := _single_convert path_exists subprocess_run decode.
Definition batch :=
  _batch_convert path_exists makedirs glob subprocess_run decode.

End Toy.

(** ** The specification's tables *)

(** The tables and the argument groups as the specification words them, to
    be compared with what the code computes. *)
Module Spec.

(** The canonical extension of a format; the name of the format is matched
    whatever its case, an unrecognized format gives a dot and the format
    as it was written. *)
Definition canonical_extension (format : string) : string :=
  let f := Py.lower format in
  if String.eqb f "flac" then ".flac"
  else if String.eqb f "mp3" then ".mp3"
  else if String.eqb f "m4a" then ".m4a"
  else if String.eqb f "wav" then ".wav"
  else if String.eqb f "ogg" then ".ogg"
  else if String.eqb f "aac" then ".aac"
  else if String.eqb f "wma" then ".wma"
  else if String.eqb f "alac" then ".m4a"
  else "." +:+ format.

(** A level clamped to the interval from 0 to 9. *)
Definition clamp (level : Z) : Z :=
  if level <? 0 then 0 else if 9 <? level then 9 else level.

(** The bitrate of a level for [m4a]. *)
Definition bitrate (level : Z) : string :=
  match level with
  | 0 => "384k" | 1 => "320k" | 2 => "256k" | 3 => "224k" | 4 => "192k"
  | 5 => "160k" | 6 => "128k" | 7 => "112k" | 8 => "96k" | 9 => "64k"
  | _ => "128k"
  end.

(** The sample-rate group: present for a rate that is given and is not 0. *)
Definition sample_rate_args (sample_rate : option Z) : list string :=
  match sample_rate with
  | Some r => if r =? 0 then [] else ["-ar"; Py.str r]
  | None => []
  end.

(** The channel group: present for a count that is given and is not 0. *)
Definition channel_args (channels : option Z) : list string :=
  match channels with
  | Some c => if c =? 0 then [] else ["-ac"; Py.str c]
  | None => []
  end.

(** The bit-depth group: for [flac] a sample format, for [wav] a codec,
    and only for the depths 16, 24 and 32. *)
Definition bit_depth_args (format : string) (bit_depth : option Z)
    : list string :=
  let f := Py.lower format in
  match bit_depth with
  | Some 16 =>
      if String.eqb f "flac" then ["-sample_fmt"; "s16"]
      else if String.eqb f "wav" then ["-c:a"; "pcm_s16le"] else []
  | Some 24 =>
      if String.eqb f "flac" then ["-sample_fmt"; "s32"]
      else if String.eqb f "wav" then ["-c:a"; "pcm_s24le"] else []
  | Some 32 =>
      if String.eqb f "flac" then ["-sample_fmt"; "s32"]
      else if String.eqb f "wav" then ["-c:a"; "pcm_s32le"] else []
  | _ => []
  end.

(** The extra arguments, none when [None] is passed. *)
Definition extra (extra_args : option (list string)) : list string :=
  default [] extra_args.

(** The argument vector in the order of the specification. *)
Definition argument_vector (input_file format output_file : string)
    (compression_level sample_rate channels bit_depth : option Z)
    (extra_args : option (list string)) : list string :=
  ["ffmpeg"; "-i"; input_file]
  ++ codec (_get_format_settings format compression_level)
  ++ format_args (_get_format_settings format compression_level)
  ++ sample_rate_args sample_rate
  ++ channel_args channels
  ++ bit_depth_args format bit_depth
  ++ extra extra_args
  ++ [output_file].

End Spec.

(** * Properties *)

(** ** The model on concrete inputs *)

Example gfs_flac : _get_format_settings "FLAC" (Some 5)
  = FormatSettings ["-c:a"; "flac"] ["-compression_level"; "5"].
Proof. vm_compute. reflexivity. Qed.

Example gfs_m4a : _get_format_settings "m4a" (Some 12)
  = FormatSettings ["-c:a"; "aac"] ["-b:a"; "128k"].
Proof. vm_compute. reflexivity. Qed.

Example gfs_mp3 : _get_format_settings "mp3" (Some (-4))
  = FormatSettings ["-c:a"; "libmp3lame"] ["-q:a"; "0"].
Proof. vm_compute. reflexivity. Qed.

Example splitext_song : os_path.splitext "song.wav" = ("song", ".wav").
Proof. reflexivity. Qed.

Example splitext_hidden : os_path.splitext "dir.d/.bashrc" = ("dir.d/.bashrc", "").
Proof. reflexivity. Qed.

Example splitext_two : os_path.splitext "a/b.tar.gz" = ("a/b.tar", ".gz").
Proof. reflexivity. Qed.

Example splitext_dots : os_path.splitext "a/...x.y" = ("a/...x", ".y").
Proof. reflexivity. Qed.

Example basename_ex : os_path.basename "music/in/a.wav" = "a.wav".
Proof. reflexivity. Qed.

Example join_ex : os_path.join "out" "a.flac" = "out/a.flac"
  ∧ os_path.join "out/" "a.flac" = "out/a.flac"
  ∧ os_path.join "out" "/a.flac" = "/a.flac".
Proof. repeat split; reflexivity. Qed.

Example ext_alac : output_extension "ALAC" = ".m4a".
Proof. vm_compute. reflexivity. Qed.

Example ext_opus : output_extension "Opus" = ".Opus".
Proof. vm_compute. reflexivity. Qed.

Example toy_single :
  exec (Toy.single "song.wav" "flac" None (Some 5) None None None None) ["song.wav"]
  = (Returned (Some "song.flac"), ["song.wav"; "song.flac"],
     [Spawn ["ffmpeg"; "-i"; "song.wav"; "-c:a"; "flac";
             "-compression_level"; "5"; "song.flac"];
      Print "Successfully converted song.wav to song.flac"]).
Proof. vm_compute. reflexivity. Qed.

Example toy_single_all :
  spawned (exec (Toy.single "in/a.mp3" "WAV" (Some "o.wav") (Some 5)
    (Some 44100) (Some 2) (Some 24) (Some ["-y"; "-vn"])) ["in/a.mp3"]).2
  = [["ffmpeg"; "-i"; "in/a.mp3"; "-c:a"; "pcm_s16le"; "-ar"; "44100";
      "-ac"; "2"; "-c:a"; "pcm_s24le"; "-y"; "-vn"; "o.wav"]].
Proof. vm_compute. reflexivity. Qed.

Example toy_batch :
  exec (Toy.batch "d" "flac" None (Some 5) None None None None "*.*")
    ["d/a.wav"; "d/b.flac"]
  = (Returned ["d/a.flac"], ["d/a.wav"; "d/b.flac"; "d/a.flac"],
     [Spawn ["ffmpeg"; "-i"; "d/a.wav"; "-c:a"; "flac";
             "-compression_level"; "5"; "d/a.flac"];
      Print "Successfully converted d/a.wav to d/a.flac";
      Print "Converted 1 files to flac format"]).
Proof. vm_compute. reflexivity. Qed.

Example toy_batch_outdir :
  (exec (Toy.batch "d" "mp3" (Some "out") None None None None None "*.wav")
    ["d/a.wav"; "d/B.MP3"]).1.1 = Returned ["out/a.mp3"].
Proof. vm_compute. reflexivity. Qed.

Example toy_batch_empty :
  exec (Toy.batch "d" "flac" None (Some 5) None None None None "*.wav") []
  = (Returned [], [], [Print "No files matching pattern '*.wav' found in d"]).
Proof. vm_compute. reflexivity. Qed.

(** ** Built-ins *)

Lemma str_inj (a b : Z) : Py.str a = Py.str b → a = b.
Proof. unfold Py.str. apply (inj pretty). Qed.

Lemma clamp_max_min (l : Z) : Z.max 0 (Z.min 9 l) = Spec.clamp l.
Proof.
  unfold Spec.clamp.
  destruct (Z.ltb_spec l 0), (Z.ltb_spec 9 l); lia.
Qed.

Lemma clamp_range (l : Z) : 0 ≤ Spec.clamp l ≤ 9.
Proof. rewrite <- clamp_max_min. lia. Qed.

(** ** The two dictionaries *)

Lemma bitrates_miss (l : Z) : ¬ (0 ≤ l ≤ 9) → bitrates !! l = None.
Proof.
  intros Hl. unfold bitrates.
  repeat (rewrite lookup_insert_ne; [| lia]).
  apply lookup_empty.
Qed.

Lemma bitrates_get (l : Z) : Py.dict_get bitrates l "128k" = Spec.bitrate l.
Proof.
  unfold Py.dict_get.
  destruct (decide (0 ≤ l ≤ 9)) as [Hl | Hl].
  - assert (l = 0 ∨ l = 1 ∨ l = 2 ∨ l = 3 ∨ l = 4 ∨ l = 5 ∨ l = 6 ∨ l = 7
            ∨ l = 8 ∨ l = 9) as Hcases by lia.
    repeat (destruct Hcases as [-> | Hcases]; [vm_compute; reflexivity |]).
    subst l. vm_compute. reflexivity.
  - rewrite bitrates_miss by assumption. simpl.
    destruct l as [| p | p]; try reflexivity; try lia.
    do 4 (destruct p as [p | p |]; try reflexivity; try lia).
Qed.

Lemma format_extensions_miss (k : string) :
  k ∉ ["flac"; "mp3"; "m4a"; "wav"; "ogg"; "aac"; "wma"; "alac"] →
  format_extensions !! k = None.
Proof.
  rewrite !not_elem_of_cons. intros (? & ? & ? & ? & ? & ? & ? & ? & _).
  unfold format_extensions.
  repeat (rewrite lookup_insert_ne; [| congruence]).
  apply lookup_empty.
Qed.

Lemma output_extension_canonical (output_format : string) :
  output_extension output_format = Spec.canonical_extension output_format.
Proof.
  unfold output_extension, Spec.canonical_extension, Py.dict_get.
  repeat match goal with
         | |- context [String.eqb ?a ?b] =>
             let E := fresh "E" in
             destruct (String.eqb_spec a b) as [E | E];
             [rewrite E; vm_compute; reflexivity |]
         end.
  rewrite format_extensions_miss; [reflexivity |].
  rewrite !not_elem_of_cons. repeat split; try assumption.
  apply not_elem_of_nil.
Qed.

(** ** [_get_format_settings], branch by branch *)

Lemma settings_flac (output_format : string) (level : option Z) :
  Py.lower output_format = "flac" →
  _get_format_settings output_format level
  = FormatSettings ["-c:a"; "flac"]
      match level with
      | Some l => ["-compression_level"; Py.str l]
      | None => []
      end.
Proof.
  intros E. unfold _get_format_settings. rewrite E.
  destruct level; reflexivity.
Qed.

Lemma settings_quality (output_format encoder : string) (level : option Z) :
  (Py.lower output_format = "mp3" ∧ encoder = "libmp3lame")
  ∨ (Py.lower output_format = "ogg" ∧ encoder = "libvorbis") →
  _get_format_settings output_format level
  = FormatSettings ["-c:a"; encoder]
      match level with
      | Some l => ["-q:a"; Py.str (Z.max 0 (Z.min 9 l))]
      | None => []
      end.
Proof.
  intros [[E ->] | [E ->]]; unfold _get_format_settings; rewrite E;
    destruct level; reflexivity.
Qed.

Lemma settings_m4a (output_format : string) (level : option Z) :
  Py.lower output_format = "m4a" →
  _get_format_settings output_format level
  = FormatSettings ["-c:a"; "aac"]
      match level with
      | Some l => ["-b:a"; Py.dict_get bitrates l "128k"]
      | None => []
      end.
Proof.
  intros E. unfold _get_format_settings. rewrite E.
  destruct level; reflexivity.
Qed.

Lemma settings_wav (output_format : string) (level : option Z) :
  Py.lower output_format = "wav" →
  _get_format_settings output_format level
  = FormatSettings ["-c:a"; "pcm_s16le"] [].
Proof.
  intros E. unfold _get_format_settings. rewrite E. reflexivity.
Qed.

Lemma settings_other (output_format : string) (level : option Z) :
  Py.lower output_format ∉ ["flac"; "mp3"; "m4a"; "wav"; "ogg"] →
  _get_format_settings output_format level
  = FormatSettings ["-c:a"; "copy"] [].
Proof.
  rewrite !not_elem_of_cons. intros (? & ? & ? & ? & ? & _).
  unfold _get_format_settings.
  repeat match goal with
         | |- context [String.eqb ?a ?b] =>
             destruct (String.eqb_spec a b); [congruence |]
         end.
  reflexivity.
Qed.

(** C5: for [mp3] and for [ogg], in any case of the letters, a level that is
    not [None] is emitted after [-q:a] clamped to the interval from 0 to 9:
    the emitted quality lies in that interval, level 15 is emitted as 9, and
    a level already in the interval is emitted as it is. *)
Theorem quality_is_clamped (output_format : string) (level : Z) :
  Py.lower output_format = "mp3" ∨ Py.lower output_format = "ogg" →
  ∃ quality : Z,
    format_args (_get_format_settings output_format (Some level))
    = ["-q:a"; Py.str quality]
    ∧ quality = Spec.clamp level
    ∧ 0 ≤ quality ≤ 9
    ∧ (level = 15 → quality = 9)
    ∧ (0 ≤ level ≤ 9 → quality = level).
Proof.
  intros Hfmt. exists (Spec.clamp level). split.
  - rewrite <- clamp_max_min.
    destruct Hfmt as [E | E].
    + rewrite (settings_quality output_format "libmp3lame"); [reflexivity | tauto].
    + rewrite (settings_quality output_format "libvorbis"); [reflexivity | tauto].
  - split; [reflexivity |]. split; [apply clamp_range |].
    rewrite <- clamp_max_min. split; lia.
Qed.

Lemma quality_is_clamped_witness :
  (Py.lower "MP3" = "mp3" ∨ Py.lower "MP3" = "ogg")
  ∧ ∃ quality : Z,
      format_args (_get_format_settings "MP3" (Some 15)) = ["-q:a"; Py.str quality]
      ∧ quality = Spec.clamp 15
      ∧ 0 ≤ quality ≤ 9
      ∧ (15 = 15 → quality = 9)
      ∧ (0 ≤ 15 ≤ 9 → quality = 15).
Proof.
  split; [left; reflexivity |].
  apply (quality_is_clamped "MP3" 15). left. reflexivity.
Defined.

(** C6: for [m4a], in any case of the letters, a level that is not [None] is
    emitted after [-b:a] as the bitrate of the table 0:384k, 1:320k, 2:256k,
    3:224k, 4:192k, 5:160k, 6:128k, 7:112k, 8:96k, 9:64k, and as 128k when
    the level is not in the table, as level 12 is. *)
Theorem m4a_bitrate_of_table (output_format : string) (level : Z) :
  Py.lower output_format = "m4a" →
  format_args (_get_format_settings output_format (Some level))
  = ["-b:a"; Spec.bitrate level]
  ∧ (¬ (0 ≤ level ≤ 9) → Spec.bitrate level = "128k")
  ∧ Spec.bitrate 12 = "128k".
Proof.
  intros E. rewrite settings_m4a by assumption. simpl.
  rewrite bitrates_get. split; [reflexivity |]. split; [| reflexivity].
  intros Hl. rewrite <- bitrates_get. unfold Py.dict_get.
  rewrite bitrates_miss by assumption. reflexivity.
Qed.

Lemma m4a_bitrate_of_table_witness :
  Py.lower "M4a" = "m4a"
  ∧ format_args (_get_format_settings "M4a" (Some 12)) = ["-b:a"; Spec.bitrate 12]
  ∧ (¬ (0 ≤ 12 ≤ 9) → Spec.bitrate 12 = "128k")
  ∧ Spec.bitrate 12 = "128k".
Proof.
  split; [reflexivity |].
  apply (m4a_bitrate_of_table "M4a" 12). reflexivity.
Defined.

(** C7: for [flac], in any case of the letters, a level that is not [None]
    is emitted after [-compression_level] as the decimal text of the very
    integer that was passed, inside the range from 0 to 12 or not: two
    levels that differ give arguments that differ, so nothing is clamped. *)
Theorem flac_level_is_raw (output_format : string) (level : Z) :
  Py.lower output_format = "flac" →
  format_args (_get_format_settings output_format (Some level))
  = ["-compression_level"; Py.str level]
  ∧ ∀ level' : Z,
      format_args (_get_format_settings output_format (Some level'))
      = format_args (_get_format_settings output_format (Some level)) →
      level' = level.
Proof.
  intros E. split.
  - rewrite settings_flac by assumption. reflexivity.
  - intros level'. rewrite !settings_flac by assumption. simpl.
    intros H. apply str_inj. congruence.
Qed.

Lemma flac_level_is_raw_witness :
  Py.lower "flac" = "flac"
  ∧ format_args (_get_format_settings "flac" (Some 100))
    = ["-compression_level"; Py.str 100]
  ∧ ∀ level' : Z,
      format_args (_get_format_settings "flac" (Some level'))
      = format_args (_get_format_settings "flac" (Some 100)) →
      level' = 100.
Proof.
  split; [reflexivity |].
  apply (flac_level_is_raw "flac" 100). reflexivity.
Defined.

(** C8: a format that, once in lower case, is none of [flac], [mp3], [m4a],
    [wav] and [ogg] gets the codec [copy] and no format argument, whatever
    the compression level; the resolver is a total function, it has no
    failing branch. *)
Theorem unknown_format_is_copy (output_format : string) (level : option Z) :
  Py.lower output_format ∉ ["flac"; "mp3"; "m4a"; "wav"; "ogg"] →
  _get_format_settings output_format level
  = FormatSettings ["-c:a"; "copy"] [].
Proof. apply settings_other. Qed.

Lemma unknown_format_is_copy_witness :
  (Py.lower "Opus" ∉ ["flac"; "mp3"; "m4a"; "wav"; "ogg"])
  ∧ _get_format_settings "Opus" (Some 3) = FormatSettings ["-c:a"; "copy"] [].
Proof.
  assert (Py.lower "Opus" ∉ ["flac"; "mp3"; "m4a"; "wav"; "ogg"]) as H.
  { rewrite !not_elem_of_cons. repeat split; try discriminate.
    apply not_elem_of_nil. }
  split; [exact H |].
  apply (unknown_format_is_copy "Opus" (Some 3)). exact H.
Defined.

(** ** Strings: slices and [rfind] *)

Lemma app_cons (a : ascii) (s1 s2 : string) :
  String a s1 +:+ s2 = String a (s1 +:+ s2).
Proof. reflexivity. Qed.

Lemma app_empty_l (s : string) : "" +:+ s = s.
Proof. reflexivity. Qed.

(** [String.append] is never unfolded by [simpl]: its two equations are
    rewritten on demand. *)
Ltac simpl_app := simpl; rewrite ?app_cons, ?app_empty_l; simpl.

Lemma app_empty_r (s : string) : s +:+ "" = s.
Proof. induction s as [| a s IH]; simpl_app; [reflexivity | f_equal; exact IH]. Qed.

Lemma app_assoc_str (s1 s2 s3 : string) : (s1 +:+ s2) +:+ s3 = s1 +:+ (s2 +:+ s3).
Proof. induction s1 as [| a s1 IH]; simpl_app; [reflexivity | f_equal; exact IH]. Qed.

Lemma length_app_str (s1 s2 : string) :
  String.length (s1 +:+ s2) = (String.length s1 + String.length s2)%nat.
Proof. induction s1 as [| a s1 IH]; simpl_app; [reflexivity | f_equal; exact IH]. Qed.

Lemma chars_app (s1 s2 : string) :
  list_ascii_of_string (s1 +:+ s2)
  = list_ascii_of_string s1 ++ list_ascii_of_string s2.
Proof. induction s1 as [| a s1 IH]; simpl_app; [reflexivity | f_equal; exact IH]. Qed.

Lemma substring_all (s : string) : substring 0 (String.length s) s = s.
Proof. induction s as [| a s IH]; simpl_app; [reflexivity | f_equal; exact IH]. Qed.

Lemma substring_none (n : nat) (s : string) : substring n 0 s = "".
Proof.
  revert n. induction s as [| a s IH]; intros [| n]; simpl; try reflexivity.
  apply IH.
Qed.

Lemma take_0 (p : string) : Py.take 0 p = "".
Proof. unfold Py.take. simpl. apply substring_none. Qed.

Lemma take_drop (i : Z) (p : string) : Py.take i p +:+ Py.drop i p = p.
Proof.
  unfold Py.take, Py.drop. generalize (Z.to_nat i) as n. clear i.
  induction p as [| a p IH]; intros [| n]; simpl_app; try reflexivity.
  - by rewrite substring_all.
  - by rewrite IH.
Qed.

Lemma take_app_length (s1 s2 : string) :
  Py.take (Z.of_nat (String.length s1)) (s1 +:+ s2) = s1.
Proof.
  unfold Py.take. rewrite Nat2Z.id.
  induction s1 as [| a s1 IH]; simpl_app; [apply substring_none | by rewrite IH].
Qed.

Lemma drop_app_length (s1 s2 : string) :
  Py.drop (Z.of_nat (String.length s1)) (s1 +:+ s2) = s2.
Proof.
  unfold Py.drop. rewrite Nat2Z.id.
  induction s1 as [| a s1 IH]; simpl_app.
  - destruct s2 as [| b s2]; simpl; [reflexivity |].
    by rewrite substring_all.
  - exact IH.
Qed.

Lemma rfind_from_range (i : Z) (s : string) (c : ascii) :
  0 ≤ i →
  Py.rfind_from i s c = -1
  ∨ i ≤ Py.rfind_from i s c < i + Z.of_nat (String.length s).
Proof.
  revert i. induction s as [| a s IH]; intros i Hi; simpl; [by left |].
  destruct (IH (i + 1)) as [E | Hr]; [lia | |].
  - rewrite E. simpl. destruct (Ascii.eqb a c); [right; lia | by left].
  - right. destruct (Z.geb_spec (Py.rfind_from (i + 1) s c) 0); lia.
Qed.

(** From a non-negative start, [-1] is returned for a character that does
    not occur, and only then. *)
Lemma rfind_from_none (i : Z) (s : string) (c : ascii) :
  0 ≤ i →
  Py.rfind_from i s c = -1 ↔ c ∉ list_ascii_of_string s.
Proof.
  revert i. induction s as [| a s IH]; intros i Hi; simpl.
  - split; [intros _; apply not_elem_of_nil | reflexivity].
  - rewrite not_elem_of_cons, <- (IH (i + 1)) by lia.
    destruct (rfind_from_range (i + 1) s c) as [E | Hr]; [lia | |].
    + rewrite E. simpl. destruct (Ascii.eqb_spec a c) as [-> | Hne].
      * split; [lia | intros [Hc _]; congruence].
      * split; [intros _; split; congruence | reflexivity].
    + destruct (Z.geb_spec (Py.rfind_from (i + 1) s c) 0); [| lia].
      split; [lia | intros [_ E]; lia].
Qed.

(** Otherwise the index returned is that of the last occurrence. *)
Lemma rfind_from_last (i : Z) (s : string) (c : ascii) :
  0 ≤ i → Py.rfind_from i s c ≠ -1 →
  ∃ s1 s2 : string,
    s = s1 +:+ String c s2
    ∧ Py.rfind_from i s c = i + Z.of_nat (String.length s1)
    ∧ c ∉ list_ascii_of_string s2.
Proof.
  revert i. induction s as [| a s IH]; intros i Hi; simpl; [congruence |].
  destruct (Z.geb_spec (Py.rfind_from (i + 1) s c) 0) as [Hge | Hlt].
  - intros _. destruct (IH (i + 1)) as (s1 & s2 & -> & Er & Hc); [lia | lia |].
    exists (String a s1), s2. simpl_app. repeat split; [lia | exact Hc].
  - destruct (Ascii.eqb_spec a c) as [-> | Hne]; [| congruence].
    intros _. exists "", s. simpl_app. repeat split; [lia |].
    apply (rfind_from_none (i + 1)); [lia |].
    destruct (rfind_from_range (i + 1) s c); lia.
Qed.

(** An occurrence bounds the index from below. *)
Lemma rfind_from_occurrence (i : Z) (s1 s2 : string) (c : ascii) :
  0 ≤ i →
  i + Z.of_nat (String.length s1) ≤ Py.rfind_from i (s1 +:+ String c s2) c.
Proof.
  revert i. induction s1 as [| a s1 IH]; intros i Hi; simpl_app.
  - destruct (rfind_from_range (i + 1) s2 c) as [E | Hr]; [lia | |].
    + rewrite E. simpl. rewrite Ascii.eqb_refl. lia.
    + destruct (Z.geb_spec (Py.rfind_from (i + 1) s2 c) 0); lia.
  - specialize (IH (i + 1) ltac:(lia)).
    destruct (Z.geb_spec
      (Py.rfind_from (i + 1) (s1 +:+ String c s2) c) 0); lia.
Qed.

(** ** [os.path.splitext] *)

Lemma skip_leading_dots_cases (n : nat) (p : string) (f d : Z) :
  os_path.skip_leading_dots n p f d = (p, "")
  ∨ os_path.skip_leading_dots n p f d = (Py.take d p, Py.drop d p).
Proof.
  revert f. induction n as [| n IH]; intros f; simpl.
  - left. by rewrite take_0.
  - destruct (negb _); [by right | apply IH].
Qed.

Lemma splitext_cases (p : string) :
  os_path.splitext p = (p, "")
  ∨ (Py.rfind p "/" < Py.rfind p "."
     ∧ os_path.splitext p
       = (Py.take (Py.rfind p ".") p, Py.drop (Py.rfind p ".") p)).
Proof.
  unfold os_path.splitext.
  destruct (Z.gtb_spec (Py.rfind p ".") (Py.rfind p "/")) as [Hgt | Hle].
  - destruct (skip_leading_dots_cases
      (Z.to_nat (Py.rfind p "." - (Py.rfind p "/" + 1))) p
      (Py.rfind p "/" + 1) (Py.rfind p ".")) as [E | E];
      rewrite E; [by left | right; split; [lia | reflexivity]].
  - left. by rewrite take_0.
Qed.

(** The two halves give the path back. *)
Lemma splitext_join (p : string) :
  (os_path.splitext p).1 +:+ (os_path.splitext p).2 = p.
Proof.
  destruct (splitext_cases p) as [E | [_ E]]; rewrite E; simpl.
  - apply app_empty_r.
  - apply take_drop.
Qed.

(** The extension is empty, or it is the last dot of the path and what
    follows it, and holds no separator. *)
Lemma splitext_extension (p : string) :
  (os_path.splitext p).2 = ""
  ∨ ∃ e : string,
      (os_path.splitext p).2 = String "." e
      ∧ ("."%char ∉ list_ascii_of_string e)
      ∧ ("/"%char ∉ list_ascii_of_string e).
Proof.
  destruct (splitext_cases p) as [E | [Hlt E]]; rewrite E; simpl; [by left |].
  right. unfold Py.rfind in *.
  pose proof (rfind_from_range 0 p "/" ltac:(lia)) as Hsep.
  destruct (rfind_from_last 0 p ".") as (s1 & s2 & Ep & Ed & Hdot); [lia | lia |].
  exists s2. split; [| split; [exact Hdot |]].
  - rewrite Ed, Z.add_0_l, Ep. apply drop_app_length.
  - intros Hin. apply list_elem_of_split in Hin as (l1 & l2 & El).
    assert (s2 = string_of_list_ascii l1 +:+ String "/" (string_of_list_ascii l2))
      as Es2.
    { rewrite <- (string_of_list_ascii_of_string s2), El. clear.
      induction l1 as [| b l1 IH]; simpl_app; [reflexivity | by rewrite IH]. }
    pose proof (rfind_from_occurrence 0
      (s1 +:+ String "." (string_of_list_ascii l1))
      (string_of_list_ascii l2) "/" ltac:(lia)) as Hocc.
    rewrite app_assoc_str, app_cons, <- Es2, <- Ep in Hocc.
    rewrite length_app_str in Hocc. simpl in Hocc. lia.
Qed.

(** The last occurrence of a character: nothing after it is that character. *)
Lemma rfind_from_at_last (i : Z) (s1 s2 : string) (c : ascii) :
  0 ≤ i → c ∉ list_ascii_of_string s2 →
  Py.rfind_from i (s1 +:+ String c s2) c = i + Z.of_nat (String.length s1).
Proof.
  intros Hi Hno. revert i Hi.
  induction s1 as [| a s1 IH]; intros i Hi; simpl_app.
  - apply (rfind_from_none (i + 1)) in Hno; [| lia]. rewrite Hno. simpl.
    rewrite Ascii.eqb_refl. lia.
  - rewrite IH by lia.
    destruct (Z.geb_spec (i + 1 + Z.of_nat (String.length s1)) 0); lia.
Qed.

(** What follows the last occurrence does not count. *)
Lemma rfind_from_app_none (i : Z) (s1 s2 : string) (c : ascii) :
  0 ≤ i → c ∉ list_ascii_of_string s2 →
  Py.rfind_from i (s1 +:+ s2) c = Py.rfind_from i s1 c.
Proof.
  intros Hi Hno. revert i Hi.
  induction s1 as [| a s1 IH]; intros i Hi; simpl_app.
  - by apply rfind_from_none.
  - by rewrite IH by lia.
Qed.

Lemma char_at_app_length (s1 s2 : string) (c : ascii) :
  Py.char_at (s1 +:+ String c s2) (Z.of_nat (String.length s1)) = String c "".
Proof.
  unfold Py.char_at. rewrite Nat2Z.id.
  induction s1 as [| a s1 IH]; simpl_app; [| exact IH].
  by rewrite substring_none.
Qed.

(** The loop stops at a character of the file name that is not a dot. *)
Lemma skip_leading_dots_cut (n : nat) (p : string) (f d k : Z) :
  f ≤ k < f + Z.of_nat n →
  String.eqb (Py.char_at p k) "." = false →
  os_path.skip_leading_dots n p f d = (Py.take d p, Py.drop d p).
Proof.
  revert f. induction n as [| n IH]; intros f Hk Hc; simpl; [lia |].
  destruct (String.eqb (Py.char_at p f) ".") eqn:Hf; simpl; [| reflexivity].
  apply IH; [| exact Hc].
  destruct (Z.eq_dec k f) as [-> | Hne]; [congruence | lia].
Qed.

(** The loop runs to its end over dots only. *)
Lemma skip_leading_dots_whole (n : nat) (p : string) (f d : Z) :
  (∀ k, f ≤ k < f + Z.of_nat n → String.eqb (Py.char_at p k) "." = true) →
  os_path.skip_leading_dots n p f d = (p, "").
Proof.
  revert f. induction n as [| n IH]; intros f Hdots; simpl.
  - by rewrite take_0.
  - rewrite Hdots by lia. simpl. apply IH. intros k Hk. apply Hdots. lia.
Qed.

(** [splitext] cuts at the last dot of the file name when a character of
    the file name before that dot is not a dot. *)
Lemma splitext_cut (dir rest e : string) (c : ascii) :
  c ≠ "."%char →
  ("/"%char ∉ list_ascii_of_string (String c rest)) →
  ("."%char ∉ list_ascii_of_string e) →
  ("/"%char ∉ list_ascii_of_string e) →
  os_path.splitext (dir +:+ String c rest +:+ String "." e)
  = (dir +:+ String c rest, String "." e).
Proof.
  intros Hc Hsep He Hsepe.
  set (stem := dir +:+ String c rest).
  assert (dir +:+ String c rest +:+ String "." e = stem +:+ String "." e)
    as Ep by (unfold stem; by rewrite app_assoc_str).
  rewrite Ep. unfold os_path.splitext, Py.rfind.
  rewrite (rfind_from_at_last 0 stem e ".") by (lia || assumption).
  assert (Py.rfind_from 0 (stem +:+ String "." e) "/"
          = Py.rfind_from 0 dir "/") as Esep.
  { unfold stem. rewrite app_assoc_str.
    apply rfind_from_app_none; [lia |].
    rewrite chars_app, not_elem_of_app. split; [exact Hsep |].
    cbn [list_ascii_of_string]. rewrite not_elem_of_cons.
    split; [discriminate | exact Hsepe]. }
  rewrite Esep.
  pose proof (rfind_from_range 0 dir "/" ltac:(lia)) as Hrange.
  assert (String.length stem = String.length dir + S (String.length rest))%nat
    as Elen by (unfold stem; by rewrite length_app_str).
  destruct (Z.gtb_spec (0 + Z.of_nat (String.length stem))
              (Py.rfind_from 0 dir "/")) as [Hgt | Hle]; [| lia].
  rewrite (skip_leading_dots_cut _ _ _ _ (Z.of_nat (String.length dir))).
  - rewrite Z.add_0_l, take_app_length, drop_app_length. reflexivity.
  - lia.
  - unfold stem. rewrite app_assoc_str, app_cons, char_at_app_length.
    cbn [String.eqb]. destruct (Ascii.eqb_spec c "."); [done |].
    reflexivity.
Qed.

Lemma all_dots_snoc (a : ascii) (s : string) :
  (∀ x, x ∈ list_ascii_of_string (String a s) → x = "."%char) →
  ∃ s' : string,
    String a s = s' +:+ "."
    ∧ ∀ x, x ∈ list_ascii_of_string s' → x = "."%char.
Proof.
  revert a. induction s as [| b s IH]; intros a Hall.
  - exists "". split; [| intros x Hx; by apply elem_of_nil in Hx].
    rewrite (Hall a); [reflexivity | apply list_elem_of_here].
  - destruct (IH b) as (s' & E & Hs').
    { intros x Hx. apply Hall. by apply list_elem_of_further. }
    exists (String a s'). rewrite app_cons, <- E. split; [reflexivity |].
    cbn [list_ascii_of_string]. intros x [-> | Hx]%elem_of_cons.
    + apply Hall, list_elem_of_here.
    + by apply Hs'.
Qed.

Lemma char_at_succ (a : ascii) (s : string) (k : nat) :
  Py.char_at (String a s) (Z.of_nat (S k)) = Py.char_at s (Z.of_nat k).
Proof. unfold Py.char_at. by rewrite !Nat2Z.id. Qed.

Lemma char_at_dots (s1 dots s3 : string) (k : nat) :
  (∀ x, x ∈ list_ascii_of_string dots → x = "."%char) →
  (String.length s1 ≤ k < String.length s1 + String.length dots)%nat →
  Py.char_at (s1 +:+ dots +:+ s3) (Z.of_nat k) = ".".
Proof.
  intros Hall. revert k. induction s1 as [| a s1 IH]; intros k Hk.
  - rewrite app_empty_l. simpl in Hk. revert k Hk.
    induction dots as [| b dots IH]; intros k Hk; simpl in Hk; [lia |].
    rewrite app_cons.
    destruct k as [| k].
    + unfold Py.char_at. simpl. rewrite substring_none.
      rewrite (Hall b); [reflexivity | apply list_elem_of_here].
    + rewrite char_at_succ. apply IH; [| lia].
      intros x Hx. apply Hall. by apply list_elem_of_further.
  - rewrite app_cons. simpl in Hk. destruct k as [| k]; [lia |].
    rewrite char_at_succ. apply IH. lia.
Qed.

(** [splitext] cuts nothing when the file name is made of dots up to its
    last dot, or has no dot. *)
Lemma splitext_whole (dir dots e : string) :
  dir = "" ∨ (∃ d : string, dir = d +:+ "/") →
  (∀ x, x ∈ list_ascii_of_string dots → x = "."%char) →
  ("."%char ∉ list_ascii_of_string e) →
  ("/"%char ∉ list_ascii_of_string e) →
  os_path.splitext (dir +:+ dots +:+ e) = (dir +:+ dots +:+ e, "").
Proof.
  intros Hdir Hdots He Hsepe. unfold os_path.splitext, Py.rfind.
  assert (Py.rfind_from 0 (dir +:+ dots +:+ e) "/" + 1
          = Z.of_nat (String.length dir)) as Esep.
  { rewrite rfind_from_app_none; [| lia |].
    - destruct Hdir as [-> | [d ->]]; [reflexivity |].
      rewrite (rfind_from_at_last 0 d "" "/") by (lia || apply not_elem_of_nil).
      rewrite length_app_str. simpl. lia.
    - rewrite chars_app, not_elem_of_app. split; [| exact Hsepe].
      intros Hin. by apply Hdots in Hin. }
  destruct dots as [| a dots].
  - rewrite app_empty_l in *.
    rewrite (rfind_from_app_none 0 dir e ".") by (lia || assumption).
    pose proof (rfind_from_range 0 dir "." ltac:(lia)) as Hrange.
    destruct (Z.gtb_spec (Py.rfind_from 0 dir ".")
                (Py.rfind_from 0 (dir +:+ e) "/")) as [Hgt | Hle]; [lia |].
    by rewrite take_0.
  - destruct (all_dots_snoc a dots Hdots) as (dots' & Edots & Hdots').
    rewrite Edots in *. clear Edots.
    assert (Py.rfind_from 0 (dir +:+ (dots' +:+ ".") +:+ e) "."
            = Z.of_nat (String.length dir + String.length dots')) as Edot.
    { replace (dir +:+ (dots' +:+ ".") +:+ e)
        with ((dir +:+ dots') +:+ String "." e)
        by (by rewrite !app_assoc_str).
      rewrite rfind_from_at_last by (lia || assumption).
      rewrite length_app_str. lia. }
    rewrite Edot.
    destruct (Z.gtb_spec (Z.of_nat (String.length dir + String.length dots'))
                (Py.rfind_from 0 (dir +:+ (dots' +:+ ".") +:+ e) "/"))
      as [Hgt | Hle]; [| by rewrite take_0].
    rewrite Esep. apply skip_leading_dots_whole.
    intros k Hk.
    replace k with (Z.of_nat (Z.to_nat k)) by lia.
    replace (dir +:+ (dots' +:+ ".") +:+ e)
      with (dir +:+ dots' +:+ String "." e) by (by rewrite !app_assoc_str).
    rewrite char_at_dots; [reflexivity | exact Hdots' | lia].
Qed.

(** ** The command line of [_single_convert] *)

Lemma bit_depth_args_other (output_format : string) (b : Z) :
  b ≠ 16 → b ≠ 24 → b ≠ 32 → Spec.bit_depth_args output_format (Some b) = [].
Proof.
  intros H16 H24 H32. unfold Spec.bit_depth_args.
  destruct b as [| p | p]; try reflexivity.
  do 6 (destruct p as [p | p |]; try reflexivity; try lia).
Qed.

(** One optional integer option: a flag and the value, or nothing. *)
Lemma extend_int_option (flag : string) (o : option Z) (cmd : list string) :
  match o with
  | Some r => if Py.truthy_int r then cmd ++ [flag; Py.str r] else cmd
  | None => cmd
  end
  = cmd ++ match o with
           | Some r => if r =? 0 then [] else [flag; Py.str r]
           | None => []
           end.
Proof.
  destruct o as [r |]; [| by rewrite app_nil_r].
  unfold Py.truthy_int. destruct (r =? 0); simpl; [by rewrite app_nil_r | done].
Qed.

(** The block of the bit depth. *)
Lemma extend_bit_depth (output_format : string) (bit_depth : option Z)
    (cmd : list string) :
  match bit_depth with
  | Some b =>
      if Py.truthy_int b && Py.in_list (Py.lower output_format) ["flac"; "wav"]
      then
        if String.eqb (Py.lower output_format) "flac" then
          if b =? 16 then cmd ++ ["-sample_fmt"; "s16"]
          else if b =? 24 then cmd ++ ["-sample_fmt"; "s32"]
          else if b =? 32 then cmd ++ ["-sample_fmt"; "s32"]
          else cmd
        else if String.eqb (Py.lower output_format) "wav" then
          if b =? 16 then cmd ++ ["-c:a"; "pcm_s16le"]
          else if b =? 24 then cmd ++ ["-c:a"; "pcm_s24le"]
          else if b =? 32 then cmd ++ ["-c:a"; "pcm_s32le"]
          else cmd
        else cmd
      else cmd
  | None => cmd
  end
  = cmd ++ Spec.bit_depth_args output_format bit_depth.
Proof.
  destruct bit_depth as [b |]; [| by rewrite app_nil_r].
  unfold Py.truthy_int, Py.in_list. simpl existsb.
  destruct (Z.eqb_spec b 16) as [-> | H16];
    [| destruct (Z.eqb_spec b 24) as [-> | H24];
       [| destruct (Z.eqb_spec b 32) as [-> | H32]]].
  4: { rewrite bit_depth_args_other by assumption. rewrite app_nil_r.
       repeat match goal with |- context [if ?c then _ else _] =>
         destruct c end; reflexivity. }
  all: unfold Spec.bit_depth_args; simpl.
  all: destruct (String.eqb (Py.lower output_format) "flac"); simpl;
       [reflexivity |].
  all: destruct (String.eqb (Py.lower output_format) "wav"); simpl;
       [reflexivity | by rewrite app_nil_r].
Qed.

Lemma extend_extra (extra_args : option (list string)) (cmd : list string) :
  match extra_args with
  | Some extra => if Py.truthy_list extra then cmd ++ extra else cmd
  | None => cmd
  end
  = cmd ++ Spec.extra extra_args.
Proof.
  destruct extra_args as [[| x extra] |]; simpl; by rewrite ?app_nil_r.
Qed.

(** The list grown step by step is the vector of the specification. *)
Lemma ffmpeg_cmd_vector (input_file output_format output_file : string)
    (compression_level sample_rate channels bit_depth : option Z)
    (extra_args : option (list string)) :
  ffmpeg_cmd input_file output_format output_file compression_level
    sample_rate channels bit_depth extra_args
  = Spec.argument_vector input_file output_format output_file
      compression_level sample_rate channels bit_depth extra_args.
Proof.
  unfold ffmpeg_cmd, Spec.argument_vector. cbv zeta.
  rewrite extend_extra, extend_bit_depth, !extend_int_option.
  unfold Spec.sample_rate_args, Spec.channel_args.
  rewrite <- !app_assoc. reflexivity.
Qed.

(** ** Traces *)

Lemma spawned_app (t1 t2 : list event) :
  spawned (t1 ++ t2) = spawned t1 ++ spawned t2.
Proof.
  induction t1 as [| [line | cmd] t1 IH]; simpl; [reflexivity | exact IH |].
  by rewrite IH.
Qed.

Lemma printed_app (t1 t2 : list event) :
  printed (t1 ++ t2) = printed t1 ++ printed t2.
Proof.
  induction t1 as [| [line | cmd] t1 IH]; simpl; [reflexivity | | exact IH].
  by rewrite IH.
Qed.

(** ** [_single_convert] *)

Section SingleConvert.

Context {World : Type}.
Variable path_exists : string → World → bool.
Variable subprocess_run : list string → World → outcome completed * World.
Variable decode : list byte → option string.

Local Abbreviation single := (_single_convert path_exists subprocess_run decode).

(** The run on an input that is not there. *)
Lemma single_missing (input_file output_format : string)
    (output_file : option string)
    (compression_level sample_rate channels bit_depth : option Z)
    (extra_args : option (list string)) (w : World) (t : list event) :
  path_exists input_file w = false →
  single input_file output_format output_file compression_level sample_rate
    channels bit_depth extra_args w t
  = (Returned None, w,
     t ++ [Print ("Input file not found: " +:+ input_file)]).
Proof.
  intros Hmiss.
  unfold _single_convert, mbind, io_bind, os_path_exists.
  rewrite Hmiss. reflexivity.
Qed.

(** The run on an input that is there: one call of [subprocess.run]; the
    tool does not start, or the child exits with status 0, or it exits with
    another status and its error stream is decoded. *)
Lemma single_found (input_file output_format : string)
    (output_file : option string)
    (compression_level sample_rate channels bit_depth : option Z)
    (extra_args : option (list string)) (w : World) (t : list event) :
  path_exists input_file w = true →
  let output := resolve_output_file input_file output_format output_file in
  let cmd := Spec.argument_vector input_file output_format output
               compression_level sample_rate channels bit_depth extra_args in
  let child := subprocess_run cmd w in
  single input_file output_format output_file compression_level sample_rate
    channels bit_depth extra_args w t
  = match child.1 with
    | Raised e => (Raised e, child.2, t ++ [Spawn cmd])
    | Returned c =>
        if returncode c =? 0
        then (Returned (Some output), child.2,
              t ++ [Spawn cmd;
                    Print ("Successfully converted " +:+ input_file
                           +:+ " to " +:+ output)])
        else match decode (stderr c) with
             | Some text =>
                 (Returned None, child.2,
                  t ++ [Spawn cmd; Print ("Error converting file: " +:+ text)])
             | None => (Raised UnicodeDecodeError, child.2, t ++ [Spawn cmd])
             end
    end.
Proof.
  intros Hfound. cbv zeta.
  unfold _single_convert, mbind, io_bind, os_path_exists.
  rewrite Hfound. cbv beta iota zeta delta [negb].
  rewrite ffmpeg_cmd_vector. unfold subprocess_run_check. cbv beta.
  destruct (subprocess_run _ w) as [[c | e] w']; simpl; [| reflexivity].
  destruct (returncode c =? 0).
  - unfold print, emit, mret, io_ret. by rewrite <- app_assoc.
  - destruct (decode (stderr c)); [| reflexivity].
    unfold print, emit, mret, io_ret. by rewrite <- app_assoc.
Qed.

Lemma single_found_spawned (input_file output_format : string)
    (output_file : option string)
    (compression_level sample_rate channels bit_depth : option Z)
    (extra_args : option (list string)) (w : World) :
  path_exists input_file w = true →
  spawned (exec (single input_file output_format output_file
    compression_level sample_rate channels bit_depth extra_args) w).2
  = [Spec.argument_vector input_file output_format
       (resolve_output_file input_file output_format output_file)
       compression_level sample_rate channels bit_depth extra_args].
Proof.
  intros Hfound. unfold exec. rewrite single_found by assumption.
  cbv zeta. destruct (subprocess_run _ w) as [[c | e] w']; simpl;
    [| reflexivity].
  destruct (returncode c =? 0); [reflexivity |].
  destruct (decode (stderr c)); reflexivity.
Qed.

Lemma argument_vector_last (input_file output_format output_file : string)
    (compression_level sample_rate channels bit_depth : option Z)
    (extra_args : option (list string)) :
  last (Spec.argument_vector input_file output_format output_file
          compression_level sample_rate channels bit_depth extra_args)
  = Some output_file.
Proof.
  unfold Spec.argument_vector. rewrite !app_assoc. apply last_snoc.
Qed.

(** C4: on an input path that does not exist, the single-file converter
    prints one line, "Input file not found" and the path, and returns
    [None]; it starts no child process and leaves the filesystem as it
    found it. *)
Theorem missing_input_fails_fast (input_file output_format : string)
    (output_file : option string)
    (compression_level sample_rate channels bit_depth : option Z)
    (extra_args : option (list string)) (w : World) :
  path_exists input_file w = false →
  exec (single input_file output_format output_file compression_level
          sample_rate channels bit_depth extra_args) w
  = (Returned None, w, [Print ("Input file not found: " +:+ input_file)])
  ∧ spawned (exec (single input_file output_format output_file
      compression_level sample_rate channels bit_depth extra_args) w).2 = [].
Proof.
  intros Hmiss. unfold exec. rewrite single_missing by assumption.
  split; reflexivity.
Qed.

(** C1: when the input exists and no output path is passed, the output
    path, which is the last argument of the one command, the value returned
    when the child exits with status 0 and the only path that can be
    returned, is the root of the input path followed by the canonical
    extension of the format, where [os.path.splitext] cuts the input path
    into root and extension: the extension of the input is replaced. The
    cut is at the last dot of the file name when a character of the file
    name before that dot is not a dot, so that the root is what stands
    before that dot; there is no cut, and the root is the whole path, when
    the file name has no dot or only dots before its last dot. For
    [song.wav] and [flac] the output path is [song.flac]. *)
Theorem default_output_path (input_file output_format : string)
    (compression_level sample_rate channels bit_depth : option Z)
    (extra_args : option (list string)) (w : World) :
  path_exists input_file w = true →
  ∃ (root ext : string) (cmd : list string),
    os_path.splitext input_file = (root, ext)
    ∧ input_file = root +:+ ext
    ∧ (ext = ""
       ∨ ∃ e : string,
           ext = String "." e
           ∧ ("."%char ∉ list_ascii_of_string e)
           ∧ ("/"%char ∉ list_ascii_of_string e))
    ∧ (∀ (dir rest e : string) (c : ascii),
         input_file = dir +:+ String c rest +:+ String "." e →
         c ≠ "."%char →
         ("/"%char ∉ list_ascii_of_string (String c rest)) →
         ("."%char ∉ list_ascii_of_string e) →
         ("/"%char ∉ list_ascii_of_string e) →
         root = dir +:+ String c rest ∧ ext = String "." e)
    ∧ (∀ dir dots e : string,
         input_file = dir +:+ dots +:+ e →
         dir = "" ∨ (∃ d : string, dir = d +:+ "/") →
         (∀ x, x ∈ list_ascii_of_string dots → x = "."%char) →
         ("."%char ∉ list_ascii_of_string e) →
         ("/"%char ∉ list_ascii_of_string e) →
         root = input_file ∧ ext = "")
    ∧ spawned (exec (single input_file output_format None compression_level
        sample_rate channels bit_depth extra_args) w).2 = [cmd]
    ∧ last cmd = Some (root +:+ Spec.canonical_extension output_format)
    ∧ (let result :=
         (exec (single input_file output_format None compression_level
            sample_rate channels bit_depth extra_args) w).1.1 in
       (∀ c : completed,
          (subprocess_run cmd w).1 = Returned c → returncode c = 0 →
          result
          = Returned (Some (root +:+ Spec.canonical_extension output_format)))
       ∧ (∀ r : option string,
            result = Returned r →
            r = None
            ∨ r = Some (root +:+ Spec.canonical_extension output_format)))
    ∧ (input_file = "song.wav" → output_format = "flac" →
       last cmd = Some "song.flac").
Proof.
  intros Hfound.
  exists (os_path.splitext input_file).1, (os_path.splitext input_file).2.
  eexists. split; [by destruct (os_path.splitext input_file) |].
  split; [by rewrite splitext_join |].
  split; [apply splitext_extension |].
  split.
  { intros dir rest e c -> Hc Hsep He Hsepe.
    by rewrite splitext_cut. }
  split.
  { intros dir dots e -> Hdir Hdots He Hsepe.
    by rewrite splitext_whole. }
  split; [by apply single_found_spawned |].
  rewrite argument_vector_last. unfold resolve_output_file.
  rewrite output_extension_canonical.
  split; [reflexivity |]. split.
  - unfold exec. rewrite single_found by assumption. cbv zeta.
    unfold resolve_output_file. rewrite output_extension_canonical.
    destruct (subprocess_run _ w) as [[c | e] w']; simpl.
    + split.
      * intros c' [= <-] Hzero. apply Z.eqb_eq in Hzero. by rewrite Hzero.
      * destruct (returncode c =? 0); [intros r [= <-]; by right |].
        destruct (decode (stderr c)); [intros r [= <-]; by left | done].
    + split; [done | done].
  - intros -> ->. reflexivity.
Qed.

(** C2: when the input exists, [subprocess.run] is called once, with the
    vector made, in this order, of [ffmpeg], [-i], the input path, the
    codec arguments, the format arguments, the sample-rate arguments, the
    channel arguments, the bit-depth arguments, the extra arguments as
    they were passed, and the output path, which is the last element. *)
Theorem argument_vector_order (input_file output_format : string)
    (output_file : option string)
    (compression_level sample_rate channels bit_depth : option Z)
    (extra_args : option (list string)) (w : World) :
  path_exists input_file w = true →
  let settings := _get_format_settings output_format compression_level in
  let output := resolve_output_file input_file output_format output_file in
  let cmd :=
    ["ffmpeg"; "-i"; input_file]
    ++ codec settings
    ++ format_args settings
    ++ Spec.sample_rate_args sample_rate
    ++ Spec.channel_args channels
    ++ Spec.bit_depth_args output_format bit_depth
    ++ Spec.extra extra_args
    ++ [output] in
  spawned (exec (single input_file output_format output_file
    compression_level sample_rate channels bit_depth extra_args) w).2 = [cmd]
  ∧ last cmd = Some output
  ∧ (∀ extra : list string, extra_args = Some extra →
     Spec.extra extra_args = extra)
  ∧ (∀ given : string, output_file = Some given → output = given).
Proof.
  intros Hfound. cbv zeta.
  split; [by apply single_found_spawned |].
  split; [apply argument_vector_last |].
  split; [by intros extra -> | by intros given ->].
Qed.

(** C9: when the input exists and the format is [flac], the command
    gets the same sample-format argument, [-sample_fmt s32], for the bit
    depth 24 as for the bit depth 32, and [-sample_fmt s16] for the bit
    depth 16; when the format is [wav], the bit depths 16, 24 and 32 add
    the codecs [pcm_s16le], [pcm_s24le] and [pcm_s32le]. The argument
    stands after the channel arguments and before the extra arguments. *)
Theorem bit_depth_arguments (input_file output_format : string)
    (output_file : option string)
    (compression_level sample_rate channels : option Z)
    (extra_args : option (list string)) (w : World) :
  path_exists input_file w = true →
  let settings := _get_format_settings output_format compression_level in
  let before :=
    ["ffmpeg"; "-i"; input_file] ++ codec settings ++ format_args settings
    ++ Spec.sample_rate_args sample_rate ++ Spec.channel_args channels in
  let after :=
    Spec.extra extra_args
    ++ [resolve_output_file input_file output_format output_file] in
  let commands (depth : Z) :=
    spawned (exec (single input_file output_format output_file
      compression_level sample_rate channels (Some depth) extra_args) w).2 in
  (Py.lower output_format = "flac" →
     commands 24 = commands 32
     ∧ commands 24 = [before ++ ["-sample_fmt"; "s32"] ++ after]
     ∧ commands 32 = [before ++ ["-sample_fmt"; "s32"] ++ after]
     ∧ commands 16 = [before ++ ["-sample_fmt"; "s16"] ++ after])
  ∧ (Py.lower output_format = "wav" →
     commands 16 = [before ++ ["-c:a"; "pcm_s16le"] ++ after]
     ∧ commands 24 = [before ++ ["-c:a"; "pcm_s24le"] ++ after]
     ∧ commands 32 = [before ++ ["-c:a"; "pcm_s32le"] ++ after]).
Proof.
  intros Hfound. cbv beta zeta.
  rewrite !single_found_spawned by assumption.
  unfold Spec.argument_vector, Spec.bit_depth_args.
  split; intros ->; simpl; rewrite <- !app_assoc; repeat split; reflexivity.
Qed.

(** C10: the optional numbers are tested for their truth value, not
    against [None]. A sample rate of 0 gives the very run that no sample
    rate gives, a channel count of 0 the very run that no channel count
    gives, and a bit depth that is none of 16, 24 and 32, as 0 is, the very
    run that no bit depth gives, for [flac] and [wav] as for any format:
    no argument is added, and no error is raised on account of the value. *)
Theorem falsy_numbers_add_nothing (input_file output_format : string)
    (output_file : option string)
    (compression_level sample_rate channels bit_depth : option Z)
    (extra_args : option (list string)) (depth : Z)
    (w : World) (t : list event) :
  depth ≠ 16 → depth ≠ 24 → depth ≠ 32 →
  single input_file output_format output_file compression_level
    (Some 0) channels bit_depth extra_args w t
  = single input_file output_format output_file compression_level
      None channels bit_depth extra_args w t
  ∧ single input_file output_format output_file compression_level
      sample_rate (Some 0) bit_depth extra_args w t
    = single input_file output_format output_file compression_level
        sample_rate None bit_depth extra_args w t
  ∧ single input_file output_format output_file compression_level
      sample_rate channels (Some depth) extra_args w t
    = single input_file output_format output_file compression_level
        sample_rate channels None extra_args w t
  ∧ single input_file output_format output_file compression_level
      sample_rate channels (Some 0) extra_args w t
    = single input_file output_format output_file compression_level
        sample_rate channels None extra_args w t.
Proof.
  intros H16 H24 H32.
  destruct (path_exists input_file w) eqn:Hfound.
  - rewrite !single_found by assumption. cbv zeta.
    unfold Spec.argument_vector.
    rewrite (bit_depth_args_other output_format depth) by assumption.
    rewrite (bit_depth_args_other output_format 0) by lia.
    repeat split; reflexivity.
  - rewrite !single_missing by assumption. repeat split; reflexivity.
Qed.

End SingleConvert.

(** ** [_batch_convert] *)

Lemma lower_app (s1 s2 : string) :
  Py.lower (s1 +:+ s2) = Py.lower s1 +:+ Py.lower s2.
Proof.
  induction s1 as [| a s1 IH]; simpl_app; [reflexivity | by rewrite IH].
Qed.

(** The extension is in lower case for every format of the table, and for
    any other format that is itself in lower case. *)
Lemma output_extension_lower (output_format : string) :
  Py.lower output_format
    ∈ ["flac"; "mp3"; "m4a"; "wav"; "ogg"; "aac"; "wma"; "alac"]
  ∨ Py.lower output_format = output_format →
  Py.lower (output_extension output_format) = output_extension output_format.
Proof.
  intros [Hin | Hlow].
  - unfold output_extension, Py.dict_get.
    rewrite !elem_of_cons, elem_of_nil in Hin.
    destruct Hin as [E | [E | [E | [E | [E | [E | [E | [E | []]]]]]]]];
      rewrite E; vm_compute; reflexivity.
  - rewrite output_extension_canonical. unfold Spec.canonical_extension.
    repeat match goal with
           | |- context [String.eqb ?a ?b] =>
               destruct (String.eqb a b); [reflexivity |]
           end.
    rewrite lower_app, Hlow. reflexivity.
Qed.

Section BatchConvert.

Context {World : Type}.
Variable path_exists : string → World → bool.
Variable makedirs : string → World → World.
Variable glob : string → string → World → list string.
Variable subprocess_run : list string → World → outcome completed * World.
Variable decode : list byte → option string.

Local Abbreviation single := (_single_convert path_exists subprocess_run decode).
Local Abbreviation loop := (batch_loop path_exists subprocess_run decode).
Local Abbreviation batch :=
  (_batch_convert path_exists makedirs glob subprocess_run decode).

(** One call of the single-file converter extends the trace by at most
    one child process, whose input is the file it was called on. *)
Lemma single_trace (input_file output_format : string)
    (output_file : option string)
    (compression_level sample_rate channels bit_depth : option Z)
    (extra_args : option (list string)) (w : World) (t : list event) :
  ∃ (r : outcome (option string)) (w' : World) (t1 : list event),
    single input_file output_format output_file compression_level
      sample_rate channels bit_depth extra_args w t = (r, w', t ++ t1)
    ∧ Forall (converts input_file) (spawned t1).
Proof.
  destruct (path_exists input_file w) eqn:Hfound.
  - rewrite single_found by assumption. cbv zeta.
    destruct (subprocess_run _ w) as [[c | e] w']; simpl;
      [destruct (returncode c =? 0); [| destruct (decode (stderr c))] |];
      do 3 eexists; (split; [reflexivity |]); simpl; repeat constructor.
  - rewrite single_missing by assumption.
    do 3 eexists. split; [reflexivity |]. constructor.
Qed.

(** The loop starts child processes only for files of the list that fail
    the test of line 203. *)
Lemma loop_trace (audio_files : list string) (output_format : string)
    (output_dir : option string)
    (compression_level sample_rate channels bit_depth : option Z)
    (extra_args : option (list string)) (output_extension : string)
    (acc : list string) (w : World) (t : list event) :
  ∃ (r : outcome (list string)) (w' : World) (t1 : list event),
    loop audio_files output_format output_dir compression_level sample_rate
      channels bit_depth extra_args output_extension acc w t
    = (r, w', t ++ t1)
    ∧ Forall (λ cmd, ∃ audio_path,
                audio_path ∈ audio_files
                ∧ Py.endswith (Py.lower audio_path) output_extension = false
                ∧ converts audio_path cmd)
             (spawned t1).
Proof.
  revert acc w t.
  induction audio_files as [| audio_path rest IH]; intros acc w t.
  - exists (Returned acc), w, []. simpl. rewrite app_nil_r. split; [reflexivity |].
    constructor.
  - simpl batch_loop.
    destruct (Py.endswith (Py.lower audio_path) output_extension) eqn:Hend.
    + destruct (IH acc w t) as (r & w' & t1 & E & Hall).
      exists r, w', t1. split; [exact E |].
      eapply Forall_impl; [exact Hall |].
      intros cmd (f & Hf & Hskip & Hcmd). exists f.
      split; [by apply list_elem_of_further | done].
    + unfold mbind, io_bind.
      match goal with
      | |- context [single audio_path output_format ?o compression_level
                      sample_rate channels bit_depth extra_args w t] =>
          destruct (single_trace audio_path output_format o
                      compression_level sample_rate channels bit_depth
                      extra_args w t) as (r1 & w1 & t1 & E1 & Hall1)
      end.
      rewrite E1. cbv beta iota.
      assert (Forall (λ cmd, ∃ f,
                f ∈ audio_path :: rest
                ∧ Py.endswith (Py.lower f) output_extension = false
                ∧ converts f cmd) (spawned t1)) as Hhere.
      { eapply Forall_impl; [exact Hall1 |].
        intros cmd Hcmd. exists audio_path.
        split; [apply list_elem_of_here | done]. }
      assert (∀ acc' : list string,
              ∃ (r : outcome (list string)) (w' : World) (t3 : list event),
                loop rest output_format output_dir compression_level
                  sample_rate channels bit_depth extra_args
                  output_extension acc' w1 (t ++ t1) = (r, w', t ++ t3)
                ∧ Forall (λ cmd, ∃ f,
                    f ∈ audio_path :: rest
                    ∧ Py.endswith (Py.lower f) output_extension = false
                    ∧ converts f cmd) (spawned t3)) as Hnext.
      { intros acc'.
        destruct (IH acc' w1 (t ++ t1)) as (r & w' & t2 & E & Hall2).
        exists r, w', (t1 ++ t2). rewrite app_assoc. split; [exact E |].
        rewrite spawned_app. apply Forall_app. split; [exact Hhere |].
        eapply Forall_impl; [exact Hall2 |].
        intros cmd (f & Hf & Hskip & Hcmd). exists f.
        split; [by apply list_elem_of_further | done]. }
      destruct r1 as [[r0 |] | e];
        [destruct (Py.truthy_str r0); apply Hnext | apply Hnext |].
      exists (Raised e), w1, t1. split; [reflexivity | exact Hhere].
Qed.

(** Every child process of a batch run converts a file that the glob
    returned and that fails the test of line 203. *)
Lemma batch_trace (input_dir output_format : string)
    (output_dir : option string)
    (compression_level sample_rate channels bit_depth : option Z)
    (extra_args : option (list string)) (file_pattern : string) (w : World) :
  let w0 := match output_dir with Some d => makedirs d w | None => w end in
  Forall (λ cmd, ∃ audio_path,
            audio_path ∈ glob input_dir file_pattern w0
            ∧ Py.endswith (Py.lower audio_path)
                (output_extension output_format) = false
            ∧ converts audio_path cmd)
    (spawned (exec (batch input_dir output_format output_dir
       compression_level sample_rate channels bit_depth extra_args
       file_pattern) w).2).
Proof.
  cbv zeta. unfold exec, _batch_convert, mbind, io_bind, Path_glob.
  set (w0 := match output_dir with Some d => makedirs d w | None => w end).
  assert ((match output_dir with
           | Some d => os_makedirs makedirs d
           | None => mret ()
           end) w [] = (Returned (), w0, []))
    as -> by (by destruct output_dir).
  destruct (Py.truthy_list (glob input_dir file_pattern w0));
    cbv beta iota delta [negb]; [| simpl; constructor].
  destruct (loop_trace (glob input_dir file_pattern w0) output_format
              output_dir compression_level sample_rate channels bit_depth
              extra_args (output_extension output_format) [] w0 [])
    as (r & w' & t1 & E & Hall).
  rewrite E. destruct r as [r | e]; simpl; [| exact Hall].
  unfold print, emit. simpl.
  rewrite spawned_app. simpl. rewrite app_nil_r. exact Hall.
Qed.

(** Where the test of line 203 succeeds, the file is left alone: no child
    process of the batch run has it as its input. *)
Lemma batch_skips (input_dir output_format : string)
    (output_dir : option string)
    (compression_level sample_rate channels bit_depth : option Z)
    (extra_args : option (list string)) (file_pattern : string) (w : World)
    (audio_path : string) :
  Py.endswith (Py.lower audio_path) (output_extension output_format) = true →
  Forall (λ cmd, ¬ converts audio_path cmd)
    (spawned (exec (batch input_dir output_format output_dir
       compression_level sample_rate channels bit_depth extra_args
       file_pattern) w).2).
Proof.
  intros Hend. eapply Forall_impl; [apply batch_trace |].
  intros cmd (f & _ & Hf & Hcmd) Hcmd'. unfold converts in *.
  rewrite Hcmd in Hcmd'. injection Hcmd' as ->. congruence.
Qed.

(** X8: for a format of the table, and for any format written in lower case,
    the test of line 203 is the comparison of the lower-case name with the
    lower-case canonical extension: such a file is never reconverted. *)
Lemma batch_skips_case_insensitive (input_dir output_format : string)
    (output_dir : option string)
    (compression_level sample_rate channels bit_depth : option Z)
    (extra_args : option (list string)) (file_pattern : string) (w : World)
    (audio_path : string) :
  Py.lower output_format
    ∈ ["flac"; "mp3"; "m4a"; "wav"; "ogg"; "aac"; "wma"; "alac"]
  ∨ Py.lower output_format = output_format →
  Py.endswith (Py.lower audio_path)
    (Py.lower (Spec.canonical_extension output_format)) = true →
  Forall (λ cmd, ¬ converts audio_path cmd)
    (spawned (exec (batch input_dir output_format output_dir
       compression_level sample_rate channels bit_depth extra_args
       file_pattern) w).2).
Proof.
  intros Hfmt Hend. apply batch_skips.
  rewrite <- output_extension_canonical in Hend.
  by rewrite output_extension_lower in Hend.
Qed.

(** C3, where the code departs from it: the format [OPUS], which is not in
    the table, has the canonical extension [.OPUS]; the file
    [music/a.OPUS] bears it, in any case of the letters; yet line 203
    compares the lower-case name with the extension as it is, the test
    fails, and the batch run starts a child process that converts the file
    onto itself. *)
Theorem batch_reconverts_upper_case_format (w : World) :
  glob "music" "*.*" w = ["music/a.OPUS"] →
  path_exists "music/a.OPUS" w = true →
  Spec.canonical_extension "OPUS" = ".OPUS"
  ∧ Py.endswith "music/a.OPUS" (Spec.canonical_extension "OPUS") = true
  ∧ Py.endswith (Py.lower "music/a.OPUS")
      (Py.lower (Spec.canonical_extension "OPUS")) = true
  ∧ Py.endswith (Py.lower "music/a.OPUS") (output_extension "OPUS") = false
  ∧ spawned (exec (batch "music" "OPUS" None (Some 5) None None None None
                     "*.*") w).2
    = [["ffmpeg"; "-i"; "music/a.OPUS"; "-c:a"; "copy"; "music/a.OPUS"]].
Proof.
  intros Hglob Hfound.
  do 4 (split; [vm_compute; reflexivity |]).
  unfold exec, _batch_convert, mbind, io_bind, Path_glob, mret, io_ret.
  rewrite Hglob. cbv beta iota delta [negb Py.truthy_list].
  assert (output_extension "OPUS" = ".OPUS") as -> by (vm_compute; reflexivity).
  unfold batch_loop.
  assert (Py.endswith (Py.lower "music/a.OPUS") ".OPUS" = false) as ->
    by (vm_compute; reflexivity).
  unfold mbind, io_bind. rewrite single_found by assumption. cbv zeta.
  assert (Spec.argument_vector "music/a.OPUS" "OPUS"
            (resolve_output_file "music/a.OPUS" "OPUS"
               (Some ((os_path.splitext "music/a.OPUS").1 +:+ ".OPUS")))
            (Some 5) None None None None
          = ["ffmpeg"; "-i"; "music/a.OPUS"; "-c:a"; "copy"; "music/a.OPUS"])
    as -> by (vm_compute; reflexivity).
  destruct (subprocess_run _ w) as [[c | e] w']; simpl; [| reflexivity].
  destruct (returncode c =? 0); simpl;
    [repeat (destruct (Py.truthy_str _)); reflexivity |].
  destruct (decode (stderr c)); reflexivity.
Qed.

End BatchConvert.

(** ** The theorems at work on the small filesystem *)

Lemma default_output_path_witness :
  (Toy.path_exists "song.wav" ["song.wav"] = true
   ∧ ∃ cmd : list string,
       spawned (exec (Toy.single "song.wav" "flac" None (Some 5) None None
                        None None) ["song.wav"]).2 = [cmd]
       ∧ last cmd = Some "song.flac")
  ∧ (Toy.path_exists "music/track.v2.wav" ["music/track.v2.wav"] = true
     ∧ ∃ cmd : list string,
         spawned (exec (Toy.single "music/track.v2.wav" "MP3" None (Some 5)
                          None None None None) ["music/track.v2.wav"]).2
         = [cmd]
         ∧ last cmd = Some "music/track.v2.mp3")
  ∧ (Toy.path_exists "notes/.hidden" ["notes/.hidden"] = true
     ∧ ∃ cmd : list string,
         spawned (exec (Toy.single "notes/.hidden" "ogg" None (Some 5) None
                          None None None) ["notes/.hidden"]).2 = [cmd]
         ∧ last cmd = Some "notes/.hidden.ogg").
Proof.
  split; [| split].
  - split; [reflexivity |].
    destruct (default_output_path Toy.path_exists Toy.subprocess_run
                Toy.decode "song.wav" "flac" (Some 5) None None None None
                ["song.wav"] eq_refl)
      as (root & ext & cmd & _ & _ & _ & _ & _ & Hspawned & _ & _ & Hsong).
    exists cmd. split; [exact Hspawned | by apply Hsong].
  - split; [reflexivity |].
    destruct (default_output_path Toy.path_exists Toy.subprocess_run
                Toy.decode "music/track.v2.wav" "MP3" (Some 5) None None None
                None ["music/track.v2.wav"] eq_refl)
      as (root & ext & cmd & _ & _ & _ & Hcut & _ & Hspawned & Hlast & _).
    exists cmd. split; [exact Hspawned |].
    destruct (Hcut "music/" "rack.v2" "wav" "t"%char eq_refl) as [-> _];
      [discriminate | | | | exact Hlast];
      cbn [list_ascii_of_string]; rewrite !not_elem_of_cons;
      repeat split; try discriminate; apply not_elem_of_nil.
  - split; [reflexivity |].
    destruct (default_output_path Toy.path_exists Toy.subprocess_run
                Toy.decode "notes/.hidden" "ogg" (Some 5) None None None None
                ["notes/.hidden"] eq_refl)
      as (root & ext & cmd & _ & _ & _ & _ & Hwhole & Hspawned & Hlast & _).
    exists cmd. split; [exact Hspawned |].
    destruct (Hwhole "notes/" "." "hidden" eq_refl) as [-> _];
      [right; by exists "notes" | | | | exact Hlast].
    + cbn [list_ascii_of_string]. intros x Hx.
      apply list_elem_of_singleton in Hx. exact Hx.
    + cbn [list_ascii_of_string]. rewrite !not_elem_of_cons.
      repeat split; try discriminate; apply not_elem_of_nil.
    + cbn [list_ascii_of_string]. rewrite !not_elem_of_cons.
      repeat split; try discriminate; apply not_elem_of_nil.
Defined.

Lemma argument_vector_order_witness :
  Toy.path_exists "in/a.mp3" ["in/a.mp3"] = true
  ∧ spawned (exec (Toy.single "in/a.mp3" "WAV" (Some "o.wav") (Some 5)
                     (Some 44100) (Some 2) (Some 24) (Some ["-y"; "-vn"]))
               ["in/a.mp3"]).2
    = [["ffmpeg"; "-i"; "in/a.mp3"; "-c:a"; "pcm_s16le"; "-ar"; "44100";
        "-ac"; "2"; "-c:a"; "pcm_s24le"; "-y"; "-vn"; "o.wav"]].
Proof.
  split; [reflexivity |].
  destruct (argument_vector_order Toy.path_exists Toy.subprocess_run Toy.decode
              "in/a.mp3" "WAV" (Some "o.wav") (Some 5) (Some 44100) (Some 2)
              (Some 24) (Some ["-y"; "-vn"]) ["in/a.mp3"] eq_refl)
    as (Hspawned & _).
  unfold Toy.single. rewrite Hspawned. vm_compute. reflexivity.
Defined.

Lemma batch_reconverts_upper_case_format_witness :
  Toy.glob "music" "*.*" ["music/a.OPUS"] = ["music/a.OPUS"]
  ∧ Toy.path_exists "music/a.OPUS" ["music/a.OPUS"] = true
  ∧ spawned (exec (Toy.batch "music" "OPUS" None (Some 5) None None None None
                     "*.*") ["music/a.OPUS"]).2
    = [["ffmpeg"; "-i"; "music/a.OPUS"; "-c:a"; "copy"; "music/a.OPUS"]].
Proof.
  split; [reflexivity |]. split; [reflexivity |].
  apply (batch_reconverts_upper_case_format Toy.path_exists Toy.makedirs
           Toy.glob Toy.subprocess_run Toy.decode ["music/a.OPUS"] eq_refl eq_refl).
Defined.

Lemma missing_input_fails_fast_witness :
  Toy.path_exists "nope.wav" ["song.wav"] = false
  ∧ exec (Toy.single "nope.wav" "flac" None (Some 5) None None None None)
      ["song.wav"]
    = (Returned None, ["song.wav"],
       [Print "Input file not found: nope.wav"]).
Proof.
  split; [reflexivity |].
  apply (missing_input_fails_fast Toy.path_exists Toy.subprocess_run Toy.decode
           "nope.wav" "flac" None (Some 5) None None None None ["song.wav"]
           eq_refl).
Defined.

Lemma bit_depth_arguments_witness :
  Toy.path_exists "a.wav" ["a.wav"] = true
  ∧ (Py.lower "FLAC" = "flac"
     ∧ spawned (exec (Toy.single "a.wav" "FLAC" None None None None (Some 24)
                        None) ["a.wav"]).2
       = [["ffmpeg"; "-i"; "a.wav"; "-c:a"; "flac"; "-sample_fmt"; "s32";
           "a.flac"]]
     ∧ spawned (exec (Toy.single "a.wav" "FLAC" None None None None (Some 32)
                        None) ["a.wav"]).2
       = [["ffmpeg"; "-i"; "a.wav"; "-c:a"; "flac"; "-sample_fmt"; "s32";
           "a.flac"]])
  ∧ (Py.lower "wav" = "wav"
     ∧ spawned (exec (Toy.single "a.wav" "wav" (Some "b.wav") None None None
                        (Some 24) None) ["a.wav"]).2
       = [["ffmpeg"; "-i"; "a.wav"; "-c:a"; "pcm_s16le"; "-c:a"; "pcm_s24le";
           "b.wav"]]).
Proof.
  split; [reflexivity |]. split.
  - split; [reflexivity |].
    destruct (bit_depth_arguments Toy.path_exists Toy.subprocess_run Toy.decode
                "a.wav" "FLAC" None None None None None ["a.wav"] eq_refl)
      as [Hflac _].
    destruct (Hflac eq_refl) as (_ & H24 & H32 & _).
    unfold Toy.single. rewrite H24, H32. split; vm_compute; reflexivity.
  - split; [reflexivity |].
    destruct (bit_depth_arguments Toy.path_exists Toy.subprocess_run Toy.decode
                "a.wav" "wav" (Some "b.wav") None None None None ["a.wav"]
                eq_refl)
      as [_ Hwav].
    destruct (Hwav eq_refl) as (_ & H24 & _).
    unfold Toy.single. rewrite H24. vm_compute. reflexivity.
Defined.

Lemma falsy_numbers_add_nothing_witness :
  (8 ≠ 16 ∧ 8 ≠ 24 ∧ 8 ≠ 32)
  ∧ Toy.single "a.wav" "flac" None (Some 5) (Some 0) (Some 2) (Some 16) None
      ["a.wav"] []
    = Toy.single "a.wav" "flac" None (Some 5) None (Some 2) (Some 16) None
        ["a.wav"] []
  ∧ Toy.single "a.wav" "flac" None (Some 5) (Some 48000) (Some 0) (Some 16)
      None ["a.wav"] []
    = Toy.single "a.wav" "flac" None (Some 5) (Some 48000) None (Some 16) None
        ["a.wav"] []
  ∧ Toy.single "a.wav" "flac" None (Some 5) (Some 48000) (Some 2) (Some 8)
      None ["a.wav"] []
    = Toy.single "a.wav" "flac" None (Some 5) (Some 48000) (Some 2) None None
        ["a.wav"] []
  ∧ Toy.single "a.wav" "flac" None (Some 5) (Some 48000) (Some 2) (Some 0)
      None ["a.wav"] []
    = Toy.single "a.wav" "flac" None (Some 5) (Some 48000) (Some 2) None None
        ["a.wav"] [].
Proof.
  split; [lia |].
  apply (falsy_numbers_add_nothing Toy.path_exists Toy.subprocess_run Toy.decode
           "a.wav" "flac" None (Some 5) (Some 48000) (Some 2) (Some 16) None 8
           ["a.wav"] []); lia.
Defined.

(** * Further properties *)

(** ** More on strings *)

Lemma lower_ascii_idem (c : ascii) :
  Py.lower_ascii (Py.lower_ascii c) = Py.lower_ascii c.
Proof. destruct c as [[] [] [] [] [] [] [] []]; reflexivity. Qed.

Lemma lower_idem (s : string) : Py.lower (Py.lower s) = Py.lower s.
Proof.
  induction s as [| a s IH]; simpl; [reflexivity |].
  by rewrite lower_ascii_idem, IH.
Qed.

Lemma substring_app_length (s1 s2 : string) :
  substring (String.length s1) (String.length s2) (s1 +:+ s2) = s2.
Proof.
  induction s1 as [| a s1 IH]; simpl_app; [apply substring_all | exact IH].
Qed.

Lemma endswith_app (s suffix : string) : Py.endswith (s +:+ suffix) suffix = true.
Proof.
  unfold Py.endswith. rewrite length_app_str.
  replace (String.length s + String.length suffix - String.length suffix)%nat
    with (String.length s) by lia.
  rewrite substring_app_length, String.eqb_refl, andb_true_r.
  apply Nat.leb_le. lia.
Qed.

Lemma prefix_app (s1 s2 : string) : String.prefix s1 (s1 +:+ s2) = true.
Proof.
  induction s1 as [| a s1 IH]; simpl_app.
  - by destruct s2.
  - destruct (ascii_dec a a); [exact IH | congruence].
Qed.

(** The extension of any format begins with a dot. *)
Lemma output_extension_dot (output_format : string) :
  ∃ e : string, output_extension output_format = String "." e.
Proof.
  rewrite output_extension_canonical. unfold Spec.canonical_extension.
  repeat match goal with
         | |- context [String.eqb ?a ?b] =>
             destruct (String.eqb a b); [eexists; reflexivity |]
         end.
  eexists. reflexivity.
Qed.

(** ** [_get_format_settings]: what every branch shares *)

(** X1: the codec never depends on the compression level, and without a
    compression level there is no format argument, whatever the format. *)
Theorem level_only_sets_format_args (output_format : string) (level : option Z) :
  codec (_get_format_settings output_format level)
  = codec (_get_format_settings output_format None)
  ∧ format_args (_get_format_settings output_format None) = [].
Proof.
  unfold _get_format_settings.
  repeat match goal with
         | |- context [String.eqb ?a ?b] =>
             destruct (String.eqb a b);
             [destruct level; split; reflexivity |]
         end.
  split; reflexivity.
Qed.

(** X2: the settings always select one codec, [-c:a] and one of six
    encoders, and the format arguments are either absent or one flag among
    [-compression_level], [-q:a] and [-b:a] followed by one value. *)
Theorem settings_shape (output_format : string) (level : option Z) :
  (∃ encoder : string,
     codec (_get_format_settings output_format level) = ["-c:a"; encoder]
     ∧ encoder ∈ ["flac"; "libmp3lame"; "aac"; "pcm_s16le"; "libvorbis"; "copy"])
  ∧ (format_args (_get_format_settings output_format level) = []
     ∨ ∃ flag value : string,
         format_args (_get_format_settings output_format level) = [flag; value]
         ∧ flag ∈ ["-compression_level"; "-q:a"; "-b:a"]).
Proof.
  unfold _get_format_settings.
  repeat match goal with
         | |- context [String.eqb ?a ?b] =>
             destruct (String.eqb a b);
             [destruct level; simpl;
              (split;
               [eexists; split; [reflexivity |];
                rewrite !elem_of_cons; tauto
               | first [ by left
                       | right; do 2 eexists; split; [reflexivity |];
                         rewrite !elem_of_cons; tauto ]]) |]
         end.
  simpl. split; [| by left].
  eexists. split; [reflexivity |]. rewrite !elem_of_cons. tauto.
Qed.

(** ** [_single_convert]: the child process and its exit status *)

Lemma format_extensions_hit (k : string) :
  k ∈ ["flac"; "mp3"; "m4a"; "wav"; "ogg"; "aac"; "wma"; "alac"] →
  is_Some (format_extensions !! k).
Proof.
  rewrite !elem_of_cons, elem_of_nil.
  intros [E | [E | [E | [E | [E | [E | [E | [E | []]]]]]]]];
    rewrite E; vm_compute; eauto.
Qed.

(** Two spellings of a format of the table have the same extension. *)
Lemma output_extension_any_case (f1 f2 : string) :
  Py.lower f1 = Py.lower f2 →
  Py.lower f1 ∈ ["flac"; "mp3"; "m4a"; "wav"; "ogg"; "aac"; "wma"; "alac"] →
  output_extension f1 = output_extension f2.
Proof.
  intros E Hin. unfold output_extension, Py.dict_get. rewrite <- E.
  destruct (format_extensions_hit _ Hin) as [e ->]. reflexivity.
Qed.

Lemma argument_vector_any_case (input_file f1 f2 output_file : string)
    (compression_level sample_rate channels bit_depth : option Z)
    (extra_args : option (list string)) :
  Py.lower f1 = Py.lower f2 →
  Spec.argument_vector input_file f1 output_file compression_level
    sample_rate channels bit_depth extra_args
  = Spec.argument_vector input_file f2 output_file compression_level
      sample_rate channels bit_depth extra_args.
Proof.
  intros E.
  unfold Spec.argument_vector, Spec.bit_depth_args, _get_format_settings.
  rewrite E. reflexivity.
Qed.

Section SingleConvertRuns.

Context {World : Type}.
Variable path_exists : string → World → bool.
Variable subprocess_run : list string → World → outcome completed * World.
Variable decode : list byte → option string.

Local Abbreviation single := (_single_convert path_exists subprocess_run decode).

(** X3: when the input exists, the converter calls [subprocess.run]
    exactly once, with the command it assembled, and leaves the filesystem
    as that call left it. If the tool cannot be started the exception of
    [subprocess.run] leaves the converter and nothing is printed. If the
    child exits with status 0 the converter returns the output path and
    prints the success line. If the child exits with another status and its
    error stream decodes, the converter returns [None] and prints the
    decoded stream; if the stream does not decode, [UnicodeDecodeError]
    leaves the converter and nothing is printed. *)
Theorem result_follows_exit_status (input_file output_format : string)
    (output_file : option string)
    (compression_level sample_rate channels bit_depth : option Z)
    (extra_args : option (list string)) (w : World) :
  path_exists input_file w = true →
  let output := resolve_output_file input_file output_format output_file in
  let cmd := ffmpeg_cmd input_file output_format output compression_level
               sample_rate channels bit_depth extra_args in
  let child := subprocess_run cmd w in
  let run := exec (single input_file output_format output_file
               compression_level sample_rate channels bit_depth extra_args) w in
  spawned run.2 = [cmd]
  ∧ run.1.2 = child.2
  ∧ (∀ e : exn,
       child.1 = Raised e →
       run.1.1 = Raised e ∧ printed run.2 = [])
  ∧ (∀ c : completed,
       child.1 = Returned c → returncode c = 0 →
       run.1.1 = Returned (Some output)
       ∧ printed run.2
         = ["Successfully converted " +:+ input_file +:+ " to " +:+ output])
  ∧ (∀ (c : completed) (text : string),
       child.1 = Returned c → returncode c ≠ 0 →
       decode (stderr c) = Some text →
       run.1.1 = Returned None
       ∧ printed run.2 = ["Error converting file: " +:+ text])
  ∧ (∀ c : completed,
       child.1 = Returned c → returncode c ≠ 0 →
       decode (stderr c) = None →
       run.1.1 = Raised UnicodeDecodeError ∧ printed run.2 = []).
Proof.
  intros Hfound. cbv zeta. unfold exec.
  rewrite single_found by assumption. cbv zeta.
  rewrite ffmpeg_cmd_vector.
  destruct (subprocess_run _ w) as [[c | e] w']; simpl.
  - destruct (Z.eqb_spec (returncode c) 0) as [E0 | E0];
      [| destruct (decode (stderr c)) as [text |] eqn:Edec]; simpl;
      repeat split; try discriminate; intros; simplify_eq; done.
  - repeat split; try discriminate; intros; simplify_eq; done.
Qed.

(** X4: the single-file converter has no guard against an input that
    already bears the extension of the format: with no output path given,
    the child process is started with the input file as its output too. *)
Theorem same_extension_converts_in_place (input_file output_format : string)
    (compression_level sample_rate channels bit_depth : option Z)
    (extra_args : option (list string)) (w : World) :
  path_exists input_file w = true →
  (os_path.splitext input_file).2 = output_extension output_format →
  ∃ cmd : list string,
    spawned (exec (single input_file output_format None compression_level
      sample_rate channels bit_depth extra_args) w).2 = [cmd]
    ∧ converts input_file cmd
    ∧ last cmd = Some input_file.
Proof.
  intros Hfound Hext. eexists.
  split; [by apply single_found_spawned |].
  split; [reflexivity |].
  rewrite argument_vector_last. unfold resolve_output_file.
  by rewrite <- Hext, splitext_join.
Qed.

(** X5: for the eight formats of the extension table the spelling of the
    format does not matter: two formats that agree in lower case give the
    same run, the same command, result and printed lines. *)
Theorem known_format_any_case (input_file f1 f2 : string)
    (output_file : option string)
    (compression_level sample_rate channels bit_depth : option Z)
    (extra_args : option (list string)) (w : World) (t : list event) :
  Py.lower f1 = Py.lower f2 →
  Py.lower f1 ∈ ["flac"; "mp3"; "m4a"; "wav"; "ogg"; "aac"; "wma"; "alac"] →
  single input_file f1 output_file compression_level sample_rate channels
    bit_depth extra_args w t
  = single input_file f2 output_file compression_level sample_rate channels
      bit_depth extra_args w t.
Proof.
  intros E Hin.
  destruct (path_exists input_file w) eqn:Hfound.
  - rewrite !single_found by assumption. cbv zeta.
    unfold resolve_output_file.
    rewrite (output_extension_any_case f1 f2) by assumption.
    by rewrite (argument_vector_any_case input_file f1 f2).
  - by rewrite !single_missing.
Qed.

End SingleConvertRuns.

(** ** [_batch_convert]: output paths *)

Lemma join_suffix (a b : string) : ∃ x : string, os_path.join a b = x +:+ b.
Proof.
  unfold os_path.join.
  destruct (String.prefix "/" b); [by exists "" |].
  destruct (_ || _); [by exists a |].
  exists (a +:+ "/"). by rewrite app_assoc_str.
Qed.

Lemma join_relative (a b : string) :
  String.prefix "/" b = false → String.prefix a (os_path.join a b) = true.
Proof.
  intros Hrel. unfold os_path.join. rewrite Hrel.
  destruct (_ || _); apply prefix_app.
Qed.

(** The base name holds no separator. *)
Lemma basename_no_sep (p : string) :
  "/"%char ∉ list_ascii_of_string (os_path.basename p).
Proof.
  unfold os_path.basename, Py.rfind.
  destruct (Z.eq_dec (Py.rfind_from 0 p "/") (-1)) as [E | E].
  - rewrite E. simpl. unfold Py.drop. simpl. rewrite Nat.sub_0_r, substring_all.
    by apply (rfind_from_none 0).
  - destruct (rfind_from_last 0 p "/") as (s1 & s2 & Ep & Er & Hno); [lia | done |].
    rewrite Er, Ep.
    replace (0 + Z.of_nat (String.length s1) + 1)
      with (Z.of_nat (String.length (s1 +:+ "/"))).
    + replace (s1 +:+ String "/" s2) with ((s1 +:+ "/") +:+ s2)
        by (by rewrite app_assoc_str).
      by rewrite drop_app_length.
    + rewrite length_app_str. simpl. lia.
Qed.

(** A path without separator joined to an extension that begins with a dot
    does not begin with a separator. *)
Lemma base_name_relative (name e : string) :
  ("/"%char ∉ list_ascii_of_string name) →
  String.prefix "/" ((os_path.splitext name).1 +:+ String "." e) = false.
Proof.
  intros Hno. pose proof (splitext_join name) as Hjoin.
  destruct (os_path.splitext name) as [root ext]. simpl in *.
  destruct root as [| a root]; [reflexivity |].
  rewrite app_cons. cbn [String.prefix].
  destruct (ascii_dec "/" a) as [<- | Hne]; [| reflexivity].
  exfalso. apply Hno. rewrite <- Hjoin, app_cons.
  cbn [list_ascii_of_string]. left.
Qed.

Lemma batch_output_path_endswith (output_dir : option string)
    (output_extension audio_path : string) :
  Py.endswith (batch_output_path output_dir output_extension audio_path)
    output_extension = true.
Proof.
  unfold batch_output_path. destruct output_dir as [d |].
  - destruct (join_suffix d
      ((os_path.splitext (os_path.basename audio_path)).1 +:+ output_extension))
      as [x ->].
    rewrite <- app_assoc_str. apply endswith_app.
  - apply endswith_app.
Qed.

Lemma batch_output_path_under (d e audio_path : string) :
  String.prefix d (batch_output_path (Some d) (String "." e) audio_path) = true.
Proof.
  unfold batch_output_path. apply join_relative, base_name_relative.
  apply basename_no_sep.
Qed.

(** ** [_batch_convert]: the loop and its results *)

Section BatchRuns.

Context {World : Type}.
Variable path_exists : string → World → bool.
Variable makedirs : string → World → World.
Variable glob : string → string → World → list string.
Variable subprocess_run : list string → World → outcome completed * World.
Variable decode : list byte → option string.

Local Abbreviation single := (_single_convert path_exists subprocess_run decode).
Local Abbreviation loop := (batch_loop path_exists subprocess_run decode).
Local Abbreviation batch :=
  (_batch_convert path_exists makedirs glob subprocess_run decode).

(** A batch run: the directory is made, the files are listed, and either
    the list is empty or the loop runs and, unless it raised, the summary
    is printed. *)
Lemma batch_unfold (input_dir output_format : string)
    (output_dir : option string)
    (compression_level sample_rate channels bit_depth : option Z)
    (extra_args : option (list string)) (file_pattern : string) (w : World) :
  let w0 := match output_dir with Some d => makedirs d w | None => w end in
  let audio_files := glob input_dir file_pattern w0 in
  exec (batch input_dir output_format output_dir compression_level
          sample_rate channels bit_depth extra_args file_pattern) w
  = match audio_files with
    | [] =>
        (Returned [], w0,
         [Print ("No files matching pattern '" +:+ file_pattern
                 +:+ "' found in " +:+ input_dir)])
    | _ :: _ =>
        let '(o, w', t) :=
          loop audio_files output_format output_dir compression_level
            sample_rate channels bit_depth extra_args
            (output_extension output_format) [] w0 [] in
        match o with
        | Returned r =>
            (Returned r, w',
             t ++ [Print ("Converted " +:+ Py.str (Z.of_nat (length r))
                          +:+ " files to " +:+ output_format +:+ " format")])
        | Raised e => (Raised e, w', t)
        end
    end.
Proof.
  cbv zeta. unfold exec, _batch_convert, mbind, io_bind, Path_glob.
  set (w0 := match output_dir with Some d => makedirs d w | None => w end).
  assert ((match output_dir with
           | Some d => os_makedirs makedirs d
           | None => mret ()
           end) w [] = (Returned (), w0, []))
    as -> by (by destruct output_dir).
  destruct (glob input_dir file_pattern w0) as [| f files];
    cbv beta iota delta [negb Py.truthy_list]; [reflexivity |].
  destruct (loop _ _ _ _ _ _ _ _ _ _ _ _) as [[[r | e] w'] t]; reflexivity.
Qed.

(** A call of the loop on one file: the only path it can return is the one
    that was passed, every command has that path as its last argument, and
    a path is returned only after one call of [subprocess.run]. *)
Lemma single_outcome (input_file output_format output : string)
    (compression_level sample_rate channels bit_depth : option Z)
    (extra_args : option (list string)) (w : World) (t : list event) :
  ∃ (o : outcome (option string)) (w' : World) (t1 : list event),
    single input_file output_format (Some output) compression_level
      sample_rate channels bit_depth extra_args w t = (o, w', t ++ t1)
    ∧ (∀ r, o = Returned (Some r) →
         r = output ∧ ∃ cmd, spawned t1 = [cmd])
    ∧ Forall (λ cmd, last cmd = Some output) (spawned t1).
Proof.
  destruct (path_exists input_file w) eqn:Hfound.
  - rewrite single_found by assumption. cbv zeta.
    destruct (subprocess_run _ w) as [[c | e] w']; simpl;
      [destruct (returncode c =? 0); [| destruct (decode (stderr c))] |];
      do 3 eexists; (split; [reflexivity |]); simpl;
      (split; [| repeat constructor; apply argument_vector_last]);
      intros r [= <-]; eauto.
  - rewrite single_missing by assumption.
    do 3 eexists. split; [reflexivity |].
    split; [intros r [=] | constructor].
Qed.

(** The loop extends the list of results; every command writes to the
    output path of a file of the list, and every new result is the last
    argument of a command. *)
Lemma loop_outputs (audio_files : list string) (output_format : string)
    (output_dir : option string)
    (compression_level sample_rate channels bit_depth : option Z)
    (extra_args : option (list string)) (output_extension : string)
    (acc : list string) (w : World) (t : list event) :
  ∃ (o : outcome (list string)) (w' : World) (t1 : list event),
    loop audio_files output_format output_dir compression_level sample_rate
      channels bit_depth extra_args output_extension acc w t
    = (o, w', t ++ t1)
    ∧ Forall (λ cmd, ∃ f, f ∈ audio_files
                ∧ last cmd
                  = Some (batch_output_path output_dir output_extension f))
        (spawned t1)
    ∧ (∀ r, o = Returned r →
         ∃ new : list string,
           r = acc ++ new
           ∧ Forall (λ x, ∃ cmd, cmd ∈ spawned t1 ∧ last cmd = Some x) new
           ∧ (length new ≤ length (spawned t1))%nat).
Proof.
  revert acc w t.
  induction audio_files as [| audio_path rest IH]; intros acc w t.
  - exists (Returned acc), w, []. simpl. rewrite !app_nil_r.
    split; [reflexivity |]. split; [constructor |].
    intros r [= <-]. exists []. rewrite app_nil_r.
    repeat split; [constructor | simpl; lia].
  - simpl batch_loop.
    destruct (Py.endswith (Py.lower audio_path) output_extension).
    + destruct (IH acc w t) as (o & w' & t1 & E & Hcmds & Hret).
      exists o, w', t1. repeat split; try assumption.
      eapply Forall_impl; [exact Hcmds |].
      intros cmd (f & Hf & Hlast). exists f.
      split; [by apply list_elem_of_further | done].
    + unfold mbind, io_bind.
      destruct (single_outcome audio_path output_format
                  (batch_output_path output_dir output_extension audio_path)
                  compression_level sample_rate channels bit_depth
                  extra_args w t) as (o1 & w1 & t1 & E1 & Hr1 & Hall1).
      unfold batch_output_path in E1 at 1. cbv zeta in E1.
      rewrite E1. cbv beta iota.
      assert (Forall (λ cmd, ∃ f, f ∈ audio_path :: rest
                ∧ last cmd
                  = Some (batch_output_path output_dir output_extension f))
                (spawned t1)) as Hhere.
      { eapply Forall_impl; [exact Hall1 |].
        intros cmd Hlast. exists audio_path.
        split; [apply list_elem_of_here | done]. }
      assert (∀ (acc' new1 : list string),
                acc' = acc ++ new1 →
                Forall (λ x, ∃ cmd, cmd ∈ spawned t1 ∧ last cmd = Some x) new1 →
                (length new1 ≤ length (spawned t1))%nat →
                ∃ (o : outcome (list string)) (w' : World) (t3 : list event),
                  loop rest output_format output_dir compression_level
                    sample_rate channels bit_depth extra_args
                    output_extension acc' w1 (t ++ t1)
                  = (o, w', t ++ t3)
                  ∧ Forall (λ cmd, ∃ f, f ∈ audio_path :: rest
                      ∧ last cmd
                        = Some (batch_output_path output_dir
                                  output_extension f)) (spawned t3)
                  ∧ (∀ r, o = Returned r →
                       ∃ new : list string,
                         r = acc ++ new
                         ∧ Forall (λ x, ∃ cmd, cmd ∈ spawned t3
                                          ∧ last cmd = Some x) new
                         ∧ (length new ≤ length (spawned t3))%nat)) as Hnext.
      { intros acc' new1 -> Hnew1 Hlen1.
        destruct (IH (acc ++ new1) w1 (t ++ t1))
          as (o & w' & t2 & E & Hcmds & Hret).
        exists o, w', (t1 ++ t2). rewrite !app_assoc.
        split; [exact E |]. rewrite spawned_app. split.
        - apply Forall_app. split; [exact Hhere |].
          eapply Forall_impl; [exact Hcmds |].
          intros cmd (f & Hf & Hlast). exists f.
          split; [by apply list_elem_of_further | done].
        - intros r Hr. destruct (Hret r Hr) as (new2 & -> & Hnew2 & Hlen2).
          exists (new1 ++ new2). rewrite app_assoc. split; [reflexivity |].
          split.
          + apply Forall_app. split.
            * eapply Forall_impl; [exact Hnew1 |].
              intros x (cmd & Hcmd & Hlast). exists cmd.
              split; [apply elem_of_app; by left | done].
            * eapply Forall_impl; [exact Hnew2 |].
              intros x (cmd & Hcmd & Hlast). exists cmd.
              split; [apply elem_of_app; by right | done].
          + rewrite !length_app. lia. }
      destruct o1 as [[r0 |] | e].
      * destruct (Hr1 r0 eq_refl) as [-> [cmd Ecmd]].
        destruct (Py.truthy_str _).
        -- apply (Hnext
             (acc ++ [batch_output_path output_dir output_extension audio_path])
             [batch_output_path output_dir output_extension audio_path]);
             [reflexivity | | rewrite Ecmd; simpl; lia].
           repeat constructor. exists cmd. rewrite Ecmd.
           split; [apply list_elem_of_here |].
           rewrite Ecmd in Hall1. by inversion Hall1.
        -- apply (Hnext acc []); [by rewrite app_nil_r | constructor | simpl; lia].
      * apply (Hnext acc []); [by rewrite app_nil_r | constructor | simpl; lia].
      * exists (Raised e), w1, t1. split; [reflexivity |].
        split; [exact Hhere | intros r [=]].
Qed.



(** X7: every path that a batch run returns ends with the extension of the
    format and is the last argument of a command of that run; there are at
    most as many results as commands. *)
Theorem batch_results_are_outputs (input_dir output_format : string)
    (output_dir : option string)
    (compression_level sample_rate channels bit_depth : option Z)
    (extra_args : option (list string)) (file_pattern : string) (w : World)
    (results : list string) :
  let run := exec (batch input_dir output_format output_dir compression_level
               sample_rate channels bit_depth extra_args file_pattern) w in
  run.1.1 = Returned results →
  Forall (λ r, Py.endswith r (output_extension output_format) = true
               ∧ ∃ cmd, cmd ∈ spawned run.2 ∧ last cmd = Some r) results
  ∧ (length results ≤ length (spawned run.2))%nat.
Proof.
  cbv zeta. rewrite batch_unfold. cbv zeta.
  destruct (glob input_dir file_pattern _) as [| f files] eqn:Hglob.
  { simpl. intros [= <-]. split; [constructor | simpl; lia]. }
  destruct (loop_outputs (f :: files) output_format output_dir
              compression_level sample_rate channels bit_depth extra_args
              (output_extension output_format) []
              (match output_dir with Some d => makedirs d w | None => w end)
              []) as (o & w' & t1 & E & Hcmds & Hret).
  rewrite E. destruct o as [r | e]; simpl; [| discriminate].
  intros [= <-]. destruct (Hret r eq_refl) as (new & -> & Hnew & Hlen).
  rewrite spawned_app. simpl. rewrite app_nil_r.
  split; [| exact Hlen].
  eapply Forall_impl; [exact Hnew |].
  intros x (cmd & Hcmd & Hlast). split; [| by exists cmd].
  rewrite Forall_forall in Hcmds.
  destruct (Hcmds cmd Hcmd) as (f' & _ & Hlast').
  rewrite Hlast in Hlast'. injection Hlast' as ->.
  apply batch_output_path_endswith.
Qed.

(** X9: when files match the pattern and the batch run returns, the last
    line printed is the summary, and the number it reports is the number of
    paths returned. *)
Theorem summary_counts_results (input_dir output_format : string)
    (output_dir : option string)
    (compression_level sample_rate channels bit_depth : option Z)
    (extra_args : option (list string)) (file_pattern : string) (w : World)
    (results : list string) :
  let w0 := match output_dir with Some d => makedirs d w | None => w end in
  let run := exec (batch input_dir output_format output_dir compression_level
               sample_rate channels bit_depth extra_args file_pattern) w in
  glob input_dir file_pattern w0 ≠ [] →
  run.1.1 = Returned results →
  last (printed run.2)
  = Some ("Converted " +:+ Py.str (Z.of_nat (length results))
          +:+ " files to " +:+ output_format +:+ " format").
Proof.
  cbv zeta. intros Hglob. rewrite batch_unfold. cbv zeta.
  destruct (glob input_dir file_pattern _) as [| f files]; [done |].
  destruct (loop _ _ _ _ _ _ _ _ _ _ _ _) as [[[r | e] w'] t]; simpl;
    [| discriminate].
  intros [= <-]. rewrite printed_app. simpl. apply last_snoc.
Qed.


(** X11: with an output directory, every child process of a batch run writes
    to a path that begins with the output directory, whatever the names of
    the matched files. *)
Theorem outputs_under_output_dir (input_dir output_format output_dir : string)
    (compression_level sample_rate channels bit_depth : option Z)
    (extra_args : option (list string)) (file_pattern : string) (w : World) :
  Forall (λ cmd, ∃ o, last cmd = Some o ∧ String.prefix output_dir o = true)
    (spawned (exec (batch input_dir output_format (Some output_dir)
       compression_level sample_rate channels bit_depth extra_args
       file_pattern) w).2).
Proof.
  rewrite batch_unfold. cbv zeta.
  destruct (glob input_dir file_pattern _) as [| f files]; [constructor |].
  destruct (loop_outputs (f :: files) output_format (Some output_dir)
              compression_level sample_rate channels bit_depth extra_args
              (output_extension output_format) [] (makedirs output_dir w) [])
    as (o & w' & t1 & E & Hcmds & _).
  rewrite E.
  assert (Forall (λ cmd, ∃ o, last cmd = Some o
                           ∧ String.prefix output_dir o = true) (spawned t1))
    as Hall.
  { eapply Forall_impl; [exact Hcmds |].
    intros cmd (f' & _ & Hlast). eexists. split; [exact Hlast |].
    destruct (output_extension_dot output_format) as [e ->].
    apply batch_output_path_under. }
  destruct o as [r | e]; simpl; [| exact Hall].
  rewrite spawned_app. simpl. by rewrite app_nil_r.
Qed.

End BatchRuns.

(** ** [convert_audio]: the two edges of the entry point *)

Section ConvertAudio.

Context {World : Type}.
Variable path_exists : string → World → bool.
Variable path_isdir : string → World → bool.
Variable makedirs : string → World → World.
Variable glob : string → string → World → list string.
Variable subprocess_run : list string → World → outcome completed * World.
Variable decode : list byte → option string.

Local Abbreviation convert :=
  (convert_audio path_exists path_isdir makedirs glob subprocess_run decode).

(** X12: on a path that is neither a directory nor an existing file,
    [convert_audio] returns [None] in its single-file form, prints that the
    input was not found, starts no child process and makes no directory,
    whatever the other arguments. *)
Theorem convert_audio_missing_path (input_path output_format : string)
    (output_path : option string)
    (compression_level sample_rate channels bit_depth : option Z)
    (extra_args : option (list string)) (file_pattern : string) (w : World) :
  path_isdir input_path w = false →
  path_exists input_path w = false →
  exec (convert input_path output_format output_path compression_level
          sample_rate channels bit_depth extra_args file_pattern) w
  = (Returned (inl None), w,
     [Print ("Input file not found: " +:+ input_path)]).
Proof.
  intros Hdir Hmiss.
  unfold exec, convert_audio, mbind, io_bind, os_path_isdir.
  rewrite Hdir. cbv beta iota.
  by rewrite single_missing.
Qed.


End ConvertAudio.

(** ** The further theorems at work on the small filesystem *)





Lemma result_follows_exit_status_witness :
  Toy.path_exists "song.flac" ["song.flac"] = true
  ∧ ((exec (Toy.single "song.flac" "flac" None None None None None None)
        ["song.flac"]).1.1 = Returned None
     ∧ printed (exec (Toy.single "song.flac" "flac" None None None None None
                        None) ["song.flac"]).2
       = ["Error converting file: Output same as Input"])
  ∧ ((exec (_single_convert Toy.path_exists Toy.subprocess_run (λ _, None)
              "song.flac" "flac" None None None None None None)
        ["song.flac"]).1.1 = Raised UnicodeDecodeError
     ∧ printed (exec (_single_convert Toy.path_exists Toy.subprocess_run
                        (λ _, None) "song.flac" "flac" None None None None
                        None None) ["song.flac"]).2 = [])
  ∧ ((exec (_single_convert Toy.path_exists (λ _ w, (Raised OSError, w))
              Toy.decode "song.wav" "flac" None None None None None None)
        ["song.wav"]).1.1 = Raised OSError
     ∧ printed (exec (_single_convert Toy.path_exists
                        (λ _ w, (Raised OSError, w)) Toy.decode "song.wav"
                        "flac" None None None None None None)
                  ["song.wav"]).2 = []).
Proof.
  split; [reflexivity |]. split; [| split].
  - destruct (result_follows_exit_status Toy.path_exists Toy.subprocess_run
                Toy.decode "song.flac" "flac" None None None None None None
                ["song.flac"] eq_refl) as (_ & _ & _ & _ & Hfail & _).
    apply (Hfail (Completed 1 (list_byte_of_string "Output same as Input"))
             "Output same as Input");
      [vm_compute; reflexivity | simpl; lia | vm_compute; reflexivity].
  - destruct (result_follows_exit_status Toy.path_exists Toy.subprocess_run
                (λ _, None) "song.flac" "flac" None None None None None None
                ["song.flac"] eq_refl) as (_ & _ & _ & _ & _ & Hraise).
    apply (Hraise (Completed 1 (list_byte_of_string "Output same as Input")));
      [vm_compute; reflexivity | simpl; lia | reflexivity].
  - destruct (result_follows_exit_status Toy.path_exists
                (λ _ w, (Raised OSError, w)) Toy.decode "song.wav" "flac"
                None None None None None None ["song.wav"] eq_refl)
      as (_ & _ & Hnotool & _).
    apply Hnotool. reflexivity.
Defined.

Lemma same_extension_converts_in_place_witness :
  Toy.path_exists "song.flac" ["song.flac"] = true
  ∧ (os_path.splitext "song.flac").2 = output_extension "FLAC"
  ∧ ∃ cmd : list string,
      spawned (exec (Toy.single "song.flac" "FLAC" None (Some 5) None None
                       None None) ["song.flac"]).2 = [cmd]
      ∧ converts "song.flac" cmd
      ∧ last cmd = Some "song.flac".
Proof.
  split; [reflexivity |]. split; [vm_compute; reflexivity |].
  apply (same_extension_converts_in_place Toy.path_exists Toy.subprocess_run
           Toy.decode "song.flac" "FLAC" (Some 5) None None None None
           ["song.flac"] eq_refl).
  vm_compute. reflexivity.
Defined.

Lemma known_format_any_case_witness :
  Py.lower "Mp3" = Py.lower "MP3"
  ∧ (Py.lower "Mp3"
       ∈ ["flac"; "mp3"; "m4a"; "wav"; "ogg"; "aac"; "wma"; "alac"])
  ∧ Toy.single "a.wav" "Mp3" None (Some 2) None None None None ["a.wav"] []
    = Toy.single "a.wav" "MP3" None (Some 2) None None None None ["a.wav"] [].
Proof.
  assert (Py.lower "Mp3"
            ∈ ["flac"; "mp3"; "m4a"; "wav"; "ogg"; "aac"; "wma"; "alac"]) as Hin.
  { apply list_elem_of_further, list_elem_of_here. }
  split; [reflexivity |]. split; [exact Hin |].
  apply (known_format_any_case Toy.path_exists Toy.subprocess_run Toy.decode
           "a.wav" "Mp3" "MP3" None (Some 2) None None None None ["a.wav"] []
           eq_refl Hin).
Defined.


Lemma batch_results_are_outputs_witness :
  (exec (Toy.batch "d" "flac" None (Some 5) None None None None "*.*")
     ["d/a.wav"; "d/b.flac"]).1.1 = Returned ["d/a.flac"]
  ∧ Forall (λ r, Py.endswith r (output_extension "flac") = true
                 ∧ ∃ cmd,
                     cmd ∈ spawned (exec (Toy.batch "d" "flac" None (Some 5)
                                            None None None None "*.*")
                                      ["d/a.wav"; "d/b.flac"]).2
                     ∧ last cmd = Some r) ["d/a.flac"]
  ∧ (length ["d/a.flac"]
     ≤ length (spawned (exec (Toy.batch "d" "flac" None (Some 5%Z) None None
                                None None "*.*") ["d/a.wav"; "d/b.flac"]).2))%nat.
Proof.
  assert ((exec (Toy.batch "d" "flac" None (Some 5) None None None None "*.*")
             ["d/a.wav"; "d/b.flac"]).1.1 = Returned ["d/a.flac"]) as Hrun
    by (vm_compute; reflexivity).
  split; [exact Hrun |].
  apply (batch_results_are_outputs Toy.path_exists Toy.makedirs Toy.glob
           Toy.subprocess_run Toy.decode "d" "flac" None (Some 5) None None
           None None "*.*" ["d/a.wav"; "d/b.flac"] ["d/a.flac"] Hrun).
Defined.

Lemma batch_skips_case_insensitive_witness :
  (Py.lower "flac"
     ∈ ["flac"; "mp3"; "m4a"; "wav"; "ogg"; "aac"; "wma"; "alac"]
   ∨ Py.lower "flac" = "flac")
  ∧ Py.endswith (Py.lower "d/B.FLAC")
      (Py.lower (Spec.canonical_extension "flac")) = true
  ∧ Forall (λ cmd, ¬ converts "d/B.FLAC" cmd)
      (spawned (exec (Toy.batch "d" "flac" None (Some 5) None None None None
                        "*.*") ["d/a.wav"; "d/B.FLAC"]).2).
Proof.
  split; [by right |]. split; [vm_compute; reflexivity |].
  apply (batch_skips_case_insensitive Toy.path_exists Toy.makedirs Toy.glob
           Toy.subprocess_run Toy.decode "d" "flac" None (Some 5) None None
           None None "*.*" ["d/a.wav"; "d/B.FLAC"] "d/B.FLAC").
  - by right.
  - vm_compute. reflexivity.
Defined.

Lemma summary_counts_results_witness :
  Toy.glob "d" "*.*" ["d/a.wav"; "d/b.flac"] ≠ []
  ∧ (exec (Toy.batch "d" "flac" None (Some 5) None None None None "*.*")
       ["d/a.wav"; "d/b.flac"]).1.1 = Returned ["d/a.flac"]
  ∧ last (printed (exec (Toy.batch "d" "flac" None (Some 5) None None None
                           None "*.*") ["d/a.wav"; "d/b.flac"]).2)
    = Some "Converted 1 files to flac format".
Proof.
  assert ((exec (Toy.batch "d" "flac" None (Some 5) None None None None "*.*")
             ["d/a.wav"; "d/b.flac"]).1.1 = Returned ["d/a.flac"]) as Hrun
    by (vm_compute; reflexivity).
  split; [discriminate |]. split; [exact Hrun |]. unfold Toy.batch in *.
  rewrite (summary_counts_results Toy.path_exists Toy.makedirs Toy.glob
             Toy.subprocess_run Toy.decode "d" "flac" None (Some 5) None None
             None None "*.*" ["d/a.wav"; "d/b.flac"] ["d/a.flac"]);
    [vm_compute; reflexivity | discriminate | exact Hrun].
Defined.


Lemma convert_audio_missing_path_witness :
  Toy.path_isdir "nope.wav" ["song.wav"] = false
  ∧ Toy.path_exists "nope.wav" ["song.wav"] = false
  ∧ exec (convert_audio Toy.path_exists Toy.path_isdir Toy.makedirs Toy.glob
            Toy.subprocess_run Toy.decode "nope.wav" "mp3" None (Some 5) None
            None None None "*.*") ["song.wav"]
    = (Returned (inl None), ["song.wav"],
       [Print "Input file not found: nope.wav"]).
Proof.
  split; [reflexivity |]. split; [reflexivity |].
  apply (convert_audio_missing_path Toy.path_exists Toy.path_isdir
           Toy.makedirs Toy.glob Toy.subprocess_run Toy.decode "nope.wav"
           "mp3" None (Some 5) None None None None "*.*" ["song.wav"]
           eq_refl eq_refl).
Defined.

